(** * Knockster Security: the guard app's verification flow

    A shallow embedding of the parts of the mobile client that decide how a
    guest is verified:
    - [JS]: the JavaScript values the screens handle (what [JSON.parse]
      returns, truthiness, [trim], the [a || b] default idiom);
    - [SecureStore]: expo-secure-store as a finite map;
    - [ApiService]: services/apiService.ts, the axios gateway with its two
      interceptors;
    - [AuthContext]: contexts/AuthContext.tsx, the explicit logout;
    - [Scanner]: app/(tabs)/scanner.tsx, the scan and OTP controller;
    - [MyQR]: app/(tabs)/my-qr.tsx, the pending-action poller and the
      tier-four OTP surface.

    React state is a record, one field per [useState], and a setter is a
    function on that record.  A handler that a widget receives as a prop
    belongs to the latest render and reads the current state; a handler
    registered once (the poll interval) keeps the state of the render that
    registered it, and takes that render as an argument.  An [async] handler
    is cut at its [await]: the part before it runs when the event arrives,
    the part after it when the call settles, and what the second part reads
    from its closure travels with the call while it is in flight. *)

(** The session around that flow is embedded the same way: the rest of
    [AuthContext] (the provider's [checkAuth] and [login]), [Splash]
    (app/index.tsx), [Login] (app/(auth)/login.tsx), [Activity]
    (app/(tabs)/activity.tsx) and [Dashboard] (app/(tabs)/index.tsx). *)

From Stdlib Require Import QArith Ascii String.
From stdpp Require Import base option list strings pretty gmap.

Set Warnings "-register-all".
Open Scope string_scope.
Open Scope list_scope.

(** ** JavaScript values *)

Module JS.

(** What [JSON.parse] can return, plus [undefined].  A number carries the
    exact value of the double ([Infinity], which [JSON.parse] gives for an
    overflowing literal, is truthy like every non-zero number and needs no
    constructor of its own here). *)
Inductive Value : Type :=
| Undefined
| Null
| Bool (b : bool)
| Num (q : Q)
| Str (s : string)
| Arr (items : list Value)
| Obj (fields : list (string * Value)).

(** [ToBoolean]: the falsy values are [undefined], [null], [false], [0] and
    the empty string. *)
Definition truthy (v : Value) : bool :=
  match v with
  | Undefined | Null => false
  | Bool b => b
  | Num q => negb (Qnum q =? 0)%Z
  | Str s => negb (String.eqb s "")
  | Arr _ | Obj _ => true
  end.

(** The first binding of [key] in the fields of an object. *)
Fixpoint field (key : string) (fields : list (string * Value)) : Value :=
  match fields with
  | [] => Undefined
  | (k, v) :: rest => if String.eqb k key then v else field key rest
  end.

(** [base.key] for the keys the screens read ([invitationId], [qrCode]):
    a [TypeError] ([None]) on [null] and [undefined], the field of an
    object, and [undefined] on primitives and arrays, which have no
    property of those names. *)
Definition get (base : Value) (key : string) : option Value :=
  match base with
  | Undefined | Null => None
  | Obj fields => Some (field key fields)
  | Bool _ | Num _ | Str _ | Arr _ => Some Undefined
  end.

(** [base.key] where [base] is known to be neither [null] nor [undefined]. *)
Definition prop (base : Value) (key : string) : Value :=
  default Undefined (get base key).

(** The message of the [TypeError] of a property read on [null] or
    [undefined] (the wording of the engine; nothing depends on it but the
    text shown to the guard). *)
Definition typeError_message (key : string) : string :=
  "Cannot read property '" +:+ key +:+ "' of null".

(** Code units that [String.prototype.trim] strips, among the code units
    below 256 that a [string] of this development holds: TAB, LF, VT, FF,
    CR, space and the no-break space. *)
Definition is_white_space (c : ascii) : bool :=
  let n := Ascii.nat_of_ascii c in
  existsb (Nat.eqb n) [9; 10; 11; 12; 13; 32; 160]%nat.

Fixpoint all_white_space (s : string) : bool :=
  match s with
  | EmptyString => true
  | String c rest => is_white_space c && all_white_space rest
  end.

(** [!s.trim()]: the trimmed string is empty exactly when every code unit
    of [s] is white space. *)
Definition blank (s : string) : bool := all_white_space s.

(** [!s] for a string. *)
Definition empty (s : string) : bool := String.eqb s "".

(** [a || b] for a string [a] that may be absent. *)
Definition or_else (a : option string) (b : string) : string :=
  match a with
  | Some s => if empty s then b else s
  | None => b
  end.

(** [s.trimStart()], [s.trimEnd()] and [s.trim()]. *)
Fixpoint trimStart (s : string) : string :=
  match s with
  | EmptyString => EmptyString
  | String c rest => if is_white_space c then trimStart rest else s
  end.

Fixpoint trimEnd (s : string) : string :=
  match s with
  | EmptyString => EmptyString
  | String c rest =>
      let rest := trimEnd rest in
      if is_white_space c && empty rest then EmptyString else String c rest
  end.

Definition trim (s : string) : string := trimEnd (trimStart s).

(** The first and the last code unit of a string. *)
Definition first_unit (s : string) : option ascii :=
  match s with
  | EmptyString => None
  | String c _ => Some c
  end.

Fixpoint last_unit (s : string) : option ascii :=
  match s with
  | EmptyString => None
  | String c EmptyString => Some c
  | String _ rest => last_unit rest
  end.

(** [is_white_space] on an end of a string, false when there is none. *)
Definition white (end_ : option ascii) : bool :=
  from_option is_white_space false end_.

End JS.

(** ** expo-secure-store *)

Module SecureStore.

(** The device's secure key-value store. *)
Abbreviation Store := (gmap string string).

Definition getItemAsync (key : string) (store : Store) : option string :=
  store !! key.

Definition setItemAsync (key value : string) (store : Store) : Store :=
  <[key := value]> store.

Definition deleteItemAsync (key : string) (store : Store) : Store :=
  delete key store.

End SecureStore.

(** ** services/apiService.ts *)

Module ApiService.

Import SecureStore.

(** [ApiResponse<T>]: the envelope every operation returns.  A field the
    JSON leaves out is [None]; a missing [success] reads as falsy. *)
Record ApiResponse (T : Type) : Type := mkResponse {
  success : bool;
  data : option T;
  message : option string;
  error : option string }.

Arguments mkResponse {T}.
Arguments success {T}.
Arguments data {T}.
Arguments message {T}.
Arguments error {T}.

(** [ScanGuestResponse]; [status] is whatever string the server sends, the
    screen compares it with ['pending_otp'] and ['success']. *)
Module ScanGuestResponse.

Record Invitation : Type := mkInvitation {
  id : string;
  guestName : option string;
  guestPhone : string;
  employeeName : string;
  employeePhone : string;
  securityLevel : Z;
  validFrom : string;
  validTo : string;
  organization : string * string;
  isPreApproved : bool }.

Record t : Type := mk {
  status : string;
  message : string;
  invitation : Invitation }.

End ScanGuestResponse.

(** [VerifyOTPResponse] *)
Module VerifyOTPResponse.

Record Invitation : Type := mkInvitation {
  id : string;
  guestName : option string;
  guestPhone : string;
  employeeName : string;
  employeePhone : string;
  securityLevel : Z;
  validFrom : string;
  validTo : string }.

Record t : Type := mk {
  status : string;
  message : string;
  invitation : Invitation }.

End VerifyOTPResponse.

(** [LoginResponse]: the token and the guard profile as the server sent
    it (an object with [id], [username], [status], the shift times and the
    organization). *)
Record LoginResponse : Type := mkLoginResponse {
  token : string;
  guard : JS.Value }.

(** [RecentScanEvent] *)
Module RecentScanEvent.

Record t : Type := mk {
  id : string;
  timestamp : string;
  success : bool;
  failureReason : option string;
  securityLevel : Z;
  guestName : string;
  guestPhone : string;
  invitationStatus : string }.

End RecentScanEvent.

(** [DashboardStats]; [recentActivity] is [None] when the answer leaves it
    out. *)
Record Totals : Type := mkTotals {
  total : Z;
  successful : Z;
  failed : Z;
  successRate : Q }.

Record DashboardStats : Type := mkDashboardStats {
  today : Totals;
  allTime : Totals;
  activeInvitations : Z;
  recentActivity : option (list RecentScanEvent.t) }.

(** [GuardQRResponse] *)
Record GuardQRResponse : Type := mkGuardQRResponse {
  qrCode : string;
  profile : JS.Value }.

(** The operations that go through [this.api], with the arguments as the
    caller passes them at run time. *)
Inductive Operation : Type :=
| login (credentials : JS.Value)
| getDashboard
| getGuardQR
| scanGuest (invitationId qrCode : JS.Value)
| verifyOtp (invitationId qrCode otpCode : JS.Value)
| getProfile
| updateProfile (data : JS.Value).

Inductive Method : Type := GET | POST | PATCH.

(** An axios request config as far as the gateway sets it. *)
Record Request : Type := mkRequest {
  method : Method;
  url : string;
  body : JS.Value;
  Authorization : option string }.

(** The [this.api.get/post/patch] call of each operation. *)
Definition request_of (op : Operation) : Request :=
  match op with
  | login credentials =>
      mkRequest POST "/api/mobile-api/security/login" credentials None
  | getDashboard =>
      mkRequest GET "/api/mobile-api/security/dashboard" JS.Undefined None
  | getGuardQR =>
      mkRequest GET "/api/mobile-api/security/qr" JS.Undefined None
  | scanGuest invitationId qrCode =>
      mkRequest POST "/api/mobile-api/security/scan-guest"
        (JS.Obj [("invitationId", invitationId); ("qrCode", qrCode)]) None
  | verifyOtp invitationId qrCode otpCode =>
      mkRequest POST "/api/mobile-api/security/verify-otp"
        (JS.Obj [("invitationId", invitationId); ("qrCode", qrCode);
                 ("otpCode", otpCode)]) None
  | getProfile =>
      mkRequest GET "/api/mobile-api/security/profile" JS.Undefined None
  | updateProfile data =>
      mkRequest PATCH "/api/mobile-api/security/profile" data None
  end.

(** The request interceptor: [if (token)] attaches the bearer header. *)
Definition request_interceptor (config : Request) (store : Store) : Request :=
  match getItemAsync "auth_token" store with
  | Some token =>
      if JS.empty token then config
      else mkRequest (method config) (url config) (body config)
             (Some ("Bearer " +:+ token))
  | None => config
  end.

(** What the network does with a request: the server answers with a status
    and a body, or no response arrives (unreachable host, the 30000 ms
    timeout). *)
Inductive Transport (T : Type) : Type :=
| Responded (status : Z) (reply : ApiResponse T)
| NoResponse (reason : string).

Arguments Responded {T}.
Arguments NoResponse {T}.

(** [AxiosError]: its message and [error.response]. *)
Record AxiosError (T : Type) : Type := mkAxiosError {
  axios_message : string;
  response : option (Z * ApiResponse T) }.

Arguments mkAxiosError {T}.
Arguments axios_message {T}.
Arguments response {T}.

(** axios' default [validateStatus]; [axios.create] does not override it. *)
Definition validateStatus (status : Z) : bool :=
  (200 <=? status)%Z && (status <? 300)%Z.

(** axios settles the promise: it resolves with the response on a 2xx status
    and rejects with an [AxiosError] otherwise. *)
Definition settle {T} (t : Transport T) : ApiResponse T + AxiosError T :=
  match t with
  | Responded status reply =>
      if validateStatus status then inl reply
      else inr (mkAxiosError
                  ("Request failed with status code " +:+ pretty status)
                  (Some (status, reply)))
  | NoResponse reason => inr (mkAxiosError reason None)
  end.

(** [error.response?.status === 401] *)
Definition is_unauthorized {T} (e : AxiosError T) : bool :=
  match response e with
  | Some (status, _) => (status =? 401)%Z
  | None => false
  end.

(** The response interceptor's rejection handler: on a 401 it deletes the
    token, and in every case it rejects again with the same error. *)
Definition response_interceptor {T} (e : AxiosError T) (store : Store) : Store :=
  if is_unauthorized e then deleteItemAsync "auth_token" store else store.

(** What a [catch (error)] of an operation can hold. *)
Inductive Caught (T : Type) : Type :=
| IsAxiosError (e : AxiosError T)
| OtherError (error_message : option string).

Arguments IsAxiosError {T}.
Arguments OtherError {T}.

Definition handleResponse {T} (reply : ApiResponse T) : ApiResponse T := reply.

Definition handleError {T} (caught : Caught T) : ApiResponse T :=
  match caught with
  | IsAxiosError e =>
      let server_message :=
        match response e with
        | Some (_, reply) => message reply
        | None => None
        end in
      mkResponse false None None
        (Some (JS.or_else server_message
                 (JS.or_else (Some (axios_message e)) "An error occurred")))
  | OtherError error_message =>
      mkResponse false None None
        (Some (JS.or_else error_message "An unexpected error occurred"))
  end.

(** The request as it leaves the device. *)
Definition sent (op : Operation) (store : Store) : Request :=
  request_interceptor (request_of op) store.

(** One operation from call to return: [try { await this.api...; return
    this.handleResponse(response) } catch (error) { return
    this.handleError(error) }], with the response interceptor between the
    network and the [catch].  The result is the secure store afterwards and
    the value the caller's [await] receives. *)
Definition perform {T} (op : Operation) (t : Transport T) (store : Store)
  : Store * ApiResponse T :=
  match settle t with
  | inl reply => (store, handleResponse reply)
  | inr e => (response_interceptor e store, handleError (IsAxiosError e))
  end.

(** The data of an answer that passes [response.success && response.data]
    in the caller, [None] when the call was rejected or the answer fails
    that test. *)
Definition answered {T} (t : Transport T) : option T :=
  match settle t with
  | inl reply => if success reply then data reply else None
  | inr _ => None
  end.

(** [logout()]: no request, the token is deleted. *)
Definition logout (store : Store) : Store := deleteItemAsync "auth_token" store.

(** The names an [ApiService] instance answers to: the field the constructor
    sets and the methods of the class body. *)
Definition members : list string :=
  ["api"; "handleResponse"; "handleError"; "login"; "logout"; "getDashboard";
   "getGuardQR"; "scanGuest"; "verifyOtp"; "getProfile"; "updateProfile"].

End ApiService.

(** ** contexts/AuthContext.tsx *)

Module AuthContext.

Import SecureStore.

(** The provider's state: [guard], [token], [isLoading]. *)
Record State : Type := mkState {
  guard : option JS.Value;
  token : option string;
  isLoading : bool }.

(** [logout]: the API logout, then both keys are deleted and the state is
    cleared; [finally] resets [isLoading]. *)
Definition logout (store : Store) (st : State) : Store * State :=
  let store := ApiService.logout store in
  let store := deleteItemAsync "auth_token" store in
  let store := deleteItemAsync "guard_data" store in
  (store, mkState None None false).

(** [isAuthenticated = !!guard && !!token] *)
Definition isAuthenticated (st : State) : bool :=
  match guard st with
  | Some g => JS.truthy g
  | None => false
  end
  && match token st with
     | Some t => negb (JS.empty t)
     | None => false
     end.

(** The state of the provider's first render. *)
Definition initial : State := mkState None None true.

(** What the provider logs with [console.error]. *)
Inductive Logged : Type :=
| CheckAuthError.

Section Provider.

(** [JSON.parse] ([None] when it throws) and [JSON.stringify] on the guard
    profile. *)
Variable JSON_parse : string -> option JS.Value.
Variable JSON_stringify : JS.Value -> string.

(** [checkAuth]: both items are read; when both are truthy the token is set
    first and the guard after [JSON.parse], so a profile that does not parse
    leaves the token set and the guard as it was, with the error logged.
    [finally] resets [isLoading]. *)
Definition checkAuth (store : Store) (st : State) : State * list Logged :=
  let storedToken := getItemAsync "auth_token" store in
  let storedGuard := getItemAsync "guard_data" store in
  match storedToken, storedGuard with
  | Some t, Some g =>
      if negb (JS.empty t) && negb (JS.empty g) then
        match JSON_parse g with
        | Some parsed => (mkState (Some parsed) (Some t) false, [])
        | None => (mkState (guard st) (Some t) false, [CheckAuthError])
        end
      else (mkState (guard st) (token st) false, [])
  | _, _ => (mkState (guard st) (token st) false, [])
  end.

(** What the device reports: [Application.androidId], [Device.modelName]
    and [Device.osVersion], each possibly [null]. *)
Record DeviceInfo : Type := mkDeviceInfo {
  androidId : option string;
  modelName : option string;
  osVersion : option string }.

(** The [credentials] object of [login]. *)
Definition credentials (device : DeviceInfo) (username password : string)
  : JS.Value :=
  JS.Obj
    [("username", JS.Str username);
     ("password", JS.Str password);
     ("deviceInfo",
      JS.Obj
        [("deviceId",
          JS.Str (JS.or_else (androidId device)
                    (JS.or_else (modelName device) "unknown")));
         ("deviceModel", JS.Str (JS.or_else (modelName device) "unknown"));
         ("osVersion", JS.Str (JS.or_else (osVersion device) "unknown"))])].

(** The value [login] resolves to: [{ success, error? }]. *)
Record LoginResult : Type := mkLoginResult {
  success : bool;
  error : option string }.

(** [login] from call to return, given what the network does with the one
    request: the request goes through the gateway, a successful answer with
    data is written to the store (token, then the serialized guard) and to
    the state, and anything else is reported with the answer's error or the
    default text.  [finally] resets [isLoading].  The [catch] of [login]
    is reached only when the store itself throws, which a finite map does
    not: [apiService.login] returns its errors. *)
Definition login (device : DeviceInfo) (username password : string)
    (t : ApiService.Transport ApiService.LoginResponse)
    (store : Store) (st : State) : Store * State * LoginResult :=
  let '(store, response) :=
    ApiService.perform
      (ApiService.login (credentials device username password)) t store in
  match ApiService.success response, ApiService.data response with
  | true, Some d =>
      let authToken := ApiService.token d in
      let guardData := ApiService.guard d in
      let store := setItemAsync "auth_token" authToken store in
      let store := setItemAsync "guard_data" (JSON_stringify guardData) store in
      (store, mkState (Some guardData) (Some authToken) false,
       mkLoginResult true None)
  | _, _ =>
      (store, mkState (guard st) (token st) false,
       mkLoginResult false
         (Some (JS.or_else (ApiService.error response) "Login failed")))
  end.

End Provider.

End AuthContext.

(** ** app/(tabs)/scanner.tsx *)

Module Scanner.

Module ScanGuestResponse := ApiService.ScanGuestResponse.
Module VerifyOTPResponse := ApiService.VerifyOTPResponse.

(** [interface ScanResult]; an optional field left out is [None]
    ([undefined] for the two echoed payload values). *)
Record ScanResult : Type := mkScanResult {
  success : bool;
  message : string;
  guestName : option string;
  guestPhone : option string;
  securityLevel : option Z;
  requiresOtp : option bool;
  invitationId : JS.Value;
  qrCode : JS.Value }.

(** The [useState] cells of [ScannerScreen] ([permission] is granted
    throughout: without it the screen renders none of the widgets below).
    [pendingOtpData] is [null] or the parsed payload object. *)
Record State : Type := mkState {
  scanned : bool;
  flashEnabled : bool;
  scanResult : option ScanResult;
  showManualEntry : bool;
  showOtpModal : bool;
  manualQrCode : string;
  otpCode : string;
  isProcessing : bool;
  pendingOtpData : JS.Value }.

Definition initial : State :=
  mkState false false None false false "" "" false JS.Null.

Definition setScanned (v : bool) (s : State) : State :=
  mkState v (flashEnabled s) (scanResult s) (showManualEntry s)
    (showOtpModal s) (manualQrCode s) (otpCode s) (isProcessing s)
    (pendingOtpData s).

Definition setFlashEnabled (v : bool) (s : State) : State :=
  mkState (scanned s) v (scanResult s) (showManualEntry s)
    (showOtpModal s) (manualQrCode s) (otpCode s) (isProcessing s)
    (pendingOtpData s).

Definition setScanResult (v : option ScanResult) (s : State) : State :=
  mkState (scanned s) (flashEnabled s) v (showManualEntry s)
    (showOtpModal s) (manualQrCode s) (otpCode s) (isProcessing s)
    (pendingOtpData s).

Definition setShowManualEntry (v : bool) (s : State) : State :=
  mkState (scanned s) (flashEnabled s) (scanResult s) v
    (showOtpModal s) (manualQrCode s) (otpCode s) (isProcessing s)
    (pendingOtpData s).

Definition setShowOtpModal (v : bool) (s : State) : State :=
  mkState (scanned s) (flashEnabled s) (scanResult s) (showManualEntry s)
    v (manualQrCode s) (otpCode s) (isProcessing s)
    (pendingOtpData s).

Definition setManualQrCode (v : string) (s : State) : State :=
  mkState (scanned s) (flashEnabled s) (scanResult s) (showManualEntry s)
    (showOtpModal s) v (otpCode s) (isProcessing s)
    (pendingOtpData s).

Definition setOtpCode (v : string) (s : State) : State :=
  mkState (scanned s) (flashEnabled s) (scanResult s) (showManualEntry s)
    (showOtpModal s) (manualQrCode s) v (isProcessing s)
    (pendingOtpData s).

Definition setIsProcessing (v : bool) (s : State) : State :=
  mkState (scanned s) (flashEnabled s) (scanResult s) (showManualEntry s)
    (showOtpModal s) (manualQrCode s) (otpCode s) v
    (pendingOtpData s).

Definition setPendingOtpData (v : JS.Value) (s : State) : State :=
  mkState (scanned s) (flashEnabled s) (scanResult s) (showManualEntry s)
    (showOtpModal s) (manualQrCode s) (otpCode s) (isProcessing s)
    v.

(** What the screen does to the outside, in order. *)
Inductive Feedback : Type := Success | Warning | Error.

Inductive Effect : Type :=
| Haptic (kind : Feedback)
| Alert (title text : string)
| Call (op : ApiService.Operation).

(** Who awaits [processScan]: [handleManualEntry] clears the text field when
    it returns, [handleBarCodeScanned] does nothing more. *)
Inductive Caller : Type := Camera | ManualEntry.

(** A handler suspended at its [await], with what its closure holds:
    [processScan] its local [parsedData], [handleVerifyOtp] the [scanResult]
    of the render it was created in. *)
Inductive Pending : Type :=
| AwaitScanGuest (parsedData : JS.Value) (caller : Caller)
| AwaitVerifyOtp (seen : option ScanResult).

(** The screen with its suspended handlers and its effects so far. *)
Record World : Type := mkWorld {
  ui : State;
  inflight : list Pending;
  effects : list Effect }.

Definition start : World := mkWorld initial [] [].

Definition update (f : State -> State) (w : World) : World :=
  mkWorld (f (ui w)) (inflight w) (effects w).

Definition emit (e : Effect) (w : World) : World :=
  mkWorld (ui w) (inflight w) (effects w ++ [e]).

Definition suspend (p : Pending) (w : World) : World :=
  mkWorld (ui w) (inflight w ++ [p]) (effects w).

Definition resume (n : nat) (w : World) : World :=
  mkWorld (ui w) (delete n (inflight w)) (effects w).

(** The requests among the effects. *)
Definition calls (l : list Effect) : list ApiService.Operation :=
  omap (fun e => match e with Call op => Some op | _ => None end) l.

Section Handlers.

(** [JSON.parse] is the platform's: [None] when it throws a [SyntaxError],
    the parsed value otherwise.  The screen depends on nothing else of it. *)
Variable JSON_parse : string -> option JS.Value.

(** The [catch] of [processScan]: the result card turns to the error. *)
Definition scan_failed (error_message : string) (w : World) : World :=
  let w := emit (Haptic Error) w in
  update (setScanResult (Some (mkScanResult false
            (JS.or_else (Some error_message) "Scan failed")
            None None None None JS.Undefined JS.Undefined))) w.

(** [processScan] from [JSON.parse] to the test of the two fields: the
    message of the error thrown, or the payload to submit.  [||] evaluates
    [parsedData.qrCode] only after [parsedData.invitationId] was read, so a
    [null] payload fails at the first read. *)
Definition parse_payload (qrData : string) : string + JS.Value :=
  match JSON_parse qrData with
  | None => inl "Invalid QR code format"
  | Some parsedData =>
      match JS.get parsedData "invitationId" with
      | None => inl (JS.typeError_message "invitationId")
      | Some invitationId =>
          if negb (JS.truthy invitationId)
             || negb (JS.truthy (JS.prop parsedData "qrCode"))
          then inl "Missing required QR data"
          else inr parsedData
      end
  end.

(** What the caller of [processScan] does once it returns. *)
Definition returned_to (caller : Caller) (w : World) : World :=
  match caller with
  | Camera => w
  | ManualEntry => update (setManualQrCode "") w
  end.

(** [processScan] up to [await apiService.scanGuest(...)], or to its end
    when the payload is rejected. *)
Definition processScan (qrData : string) (caller : Caller) (w : World) : World :=
  let w := update (setIsProcessing true) w in
  match parse_payload qrData with
  | inl error_message =>
      let w := scan_failed error_message w in
      let w := update (setIsProcessing false) w in
      returned_to caller w
  | inr parsedData =>
      let w := emit (Call (ApiService.scanGuest
                             (JS.prop parsedData "invitationId")
                             (JS.prop parsedData "qrCode"))) w in
      suspend (AwaitScanGuest parsedData caller) w
  end.

(** [processScan] from the response of [scanGuest] to its end. *)
Definition processScan_settled (parsedData : JS.Value) (caller : Caller)
    (response : ApiService.ApiResponse ScanGuestResponse.t) (w : World) : World :=
  let w :=
    match ApiService.success response, ApiService.data response with
    | true, Some d =>
        let invitation := ScanGuestResponse.invitation d in
        if String.eqb (ScanGuestResponse.status d) "pending_otp" then
          let w := emit (Haptic Warning) w in
          let w := update (setPendingOtpData parsedData) w in
          let w := update (setScanResult (Some (mkScanResult true
                     "OTP Required"
                     (ScanGuestResponse.guestName invitation)
                     (Some (ScanGuestResponse.guestPhone invitation))
                     (Some (ScanGuestResponse.securityLevel invitation))
                     (Some true)
                     (JS.prop parsedData "invitationId")
                     (JS.prop parsedData "qrCode")))) w in
          update (setShowOtpModal true) w
        else if String.eqb (ScanGuestResponse.status d) "success" then
          let w := emit (Haptic Success) w in
          update (setScanResult (Some (mkScanResult true
                     (JS.or_else (Some (ScanGuestResponse.message d))
                        "Access Granted")
                     (ScanGuestResponse.guestName invitation)
                     (Some (ScanGuestResponse.guestPhone invitation))
                     (Some (ScanGuestResponse.securityLevel invitation))
                     (Some false)
                     JS.Undefined JS.Undefined))) w
        else
          scan_failed
            (JS.or_else (Some (ScanGuestResponse.message d)) "Scan failed") w
    | _, _ =>
        scan_failed (JS.or_else (ApiService.error response) "Scan failed") w
    end in
  let w := update (setIsProcessing false) w in
  returned_to caller w.

(** [handleBarCodeScanned] *)
Definition handleBarCodeScanned (data : string) (w : World) : World :=
  if scanned (ui w) || isProcessing (ui w) then w
  else
    let w := update (setScanned true) w in
    let w := emit (Haptic Success) w in
    processScan data Camera w.

(** [handleManualEntry] *)
Definition handleManualEntry (w : World) : World :=
  if JS.blank (manualQrCode (ui w)) then
    emit (Alert "Error" "Please enter QR code data") w
  else
    let qrData := manualQrCode (ui w) in
    let w := update (setShowManualEntry false) w in
    let w := update (setScanned true) w in
    processScan qrData ManualEntry w.

(** [handleVerifyOtp] up to [await apiService.verifyOtp(...)]. *)
Definition handleVerifyOtp (w : World) : World :=
  if JS.blank (otpCode (ui w)) || negb (JS.truthy (pendingOtpData (ui w)))
  then w
  else
    let seen := scanResult (ui w) in
    let request :=
      ApiService.verifyOtp
        (JS.prop (pendingOtpData (ui w)) "invitationId")
        (JS.prop (pendingOtpData (ui w)) "qrCode")
        (JS.Str (otpCode (ui w))) in
    let w := update (setIsProcessing true) w in
    let w := emit (Call request) w in
    suspend (AwaitVerifyOtp seen) w.

(** [handleVerifyOtp] from the response of [verifyOtp] to its end. *)
Definition handleVerifyOtp_settled (seen : option ScanResult)
    (response : ApiService.ApiResponse VerifyOTPResponse.t) (w : World) : World :=
  let w :=
    match ApiService.success response, ApiService.data response with
    | true, Some d =>
        let w := emit (Haptic Success) w in
        let w := update (setScanResult (Some (mkScanResult true
                   (JS.or_else (Some (VerifyOTPResponse.message d))
                      "Access Granted")
                   (seen ≫= guestName)
                   (seen ≫= guestPhone)
                   (seen ≫= securityLevel)
                   (Some false)
                   JS.Undefined JS.Undefined))) w in
        let w := update (setShowOtpModal false) w in
        let w := update (setOtpCode "") w in
        update (setPendingOtpData JS.Null) w
    | _, _ =>
        let w := emit (Haptic Error) w in
        emit (Alert "Error"
                (JS.or_else
                   (Some (JS.or_else (ApiService.error response) "Invalid OTP"))
                   "OTP verification failed")) w
    end in
  update (setIsProcessing false) w.

(** [resetScanner] *)
Definition resetScanner (w : World) : World :=
  let w := update (setScanned false) w in
  let w := update (setScanResult None) w in
  let w := update (setOtpCode "") w in
  update (setPendingOtpData JS.Null) w.

(** The [onPress] of the Cancel button of the OTP modal. *)
Definition cancelOtp (w : World) : World :=
  let w := update (setShowOtpModal false) w in
  resetScanner w.


(** *** The rendered screen

    Which widget can fire which handler follows the JSX: the camera view and
    the control row are rendered only while [!scanned], the result card with
    its Scan Another button only while [scanned], each modal only while its
    flag is set, and a button with [disabled] set does not call [onPress].
    A visible modal covers the screen, so the buttons under it cannot be
    pressed; the camera keeps delivering codes under it. *)

Inductive Reply : Type :=
| ScanGuestReply (response : ApiService.ApiResponse ScanGuestResponse.t)
| VerifyOtpReply (response : ApiService.ApiResponse VerifyOTPResponse.t).

Inductive Event : Type :=
| onBarcodeScanned (data : string)
| pressFlash
| pressManualEntry
| closeManualEntry
| changeManualText (text : string)
| pressSubmit
| changeOtpText (text : string)
| pressVerify
| pressCancel
| pressScanAnother
| settled (n : nat) (reply : Reply).

Definition modal_visible (s : State) : bool :=
  showManualEntry s || showOtpModal s.

(** [disabled] of the Verify button of the OTP modal. *)
Definition verify_disabled (s : State) : bool :=
  JS.blank (otpCode s) || isProcessing s.

Definition step (e : Event) (w : World) : World :=
  let s := ui w in
  match e with
  | onBarcodeScanned data =>
      if scanned s then w else handleBarCodeScanned data w
  | pressFlash =>
      if scanned s || modal_visible s then w
      else update (setFlashEnabled (negb (flashEnabled s))) w
  | pressManualEntry =>
      if scanned s || modal_visible s then w
      else update (setShowManualEntry true) w
  | closeManualEntry =>
      if showManualEntry s then update (setShowManualEntry false) w else w
  | changeManualText text =>
      if showManualEntry s then update (setManualQrCode text) w else w
  | pressSubmit =>
      if showManualEntry s && negb (JS.blank (manualQrCode s))
      then handleManualEntry w else w
  | changeOtpText text =>
      if showOtpModal s && (String.length text <=? 6)%nat
      then update (setOtpCode text) w else w
  | pressVerify =>
      if showOtpModal s && negb (verify_disabled s)
      then handleVerifyOtp w else w
  | pressCancel =>
      if showOtpModal s && negb (isProcessing s) then cancelOtp w else w
  | pressScanAnother =>
      if scanned s && negb (modal_visible s) then resetScanner w else w
  | settled n reply =>
      match inflight w !! n, reply with
      | Some (AwaitScanGuest parsedData caller), ScanGuestReply response =>
          processScan_settled parsedData caller response (resume n w)
      | Some (AwaitVerifyOtp seen), VerifyOtpReply response =>
          handleVerifyOtp_settled seen response (resume n w)
      | _, _ => w
      end
  end.

(** The events of a session, oldest first. *)
Definition run (events : list Event) (w : World) : World :=
  foldl (fun w e => step e w) w events.

End Handlers.

(** What the guard sees, read off the JSX: the OTP modal when its flag is
    set, else the camera while [!scanned], else the result card, which shows
    the verdict of [scanResult] once there is one. *)
Inductive Phase : Type := Scanning | Submitting | OtpPending | Granted | Denied.

Definition phase (s : State) : Phase :=
  if showOtpModal s then OtpPending
  else if negb (scanned s) then Scanning
  else match scanResult s with
       | None => Submitting
       | Some result => if success result then Granted else Denied
       end.

(** The payload classes of the specification.  A parsed payload is complete
    when it carries a usable [invitationId] and [qrCode]; a scanned text is
    well formed when it parses to a complete payload, and malformed when it
    does not parse or parses to a payload that misses one of the two. *)
Definition complete (parsedData : JS.Value) : bool :=
  JS.truthy (JS.prop parsedData "invitationId")
  && JS.truthy (JS.prop parsedData "qrCode").

Definition well_formed (JSON_parse : string -> option JS.Value)
    (qrData : string) (parsedData : JS.Value) : Prop :=
  JSON_parse qrData = Some parsedData /\ complete parsedData = true.


(** The answers of the server by their shape. *)
Definition requires_otp (response : ApiService.ApiResponse ScanGuestResponse.t)
    (d : ScanGuestResponse.t) : Prop :=
  ApiService.success response = true /\ ApiService.data response = Some d
  /\ ScanGuestResponse.status d = "pending_otp".

Definition accepted {T} (response : ApiService.ApiResponse T) (d : T) : Prop :=
  ApiService.success response = true /\ ApiService.data response = Some d.

Definition rejected {T} (response : ApiService.ApiResponse T) : Prop :=
  ApiService.success response = false \/ ApiService.data response = None.

End Scanner.

(** ** app/(tabs)/my-qr.tsx *)

Module MyQR.

Module PendingL3Scan.

Record t : Type := mk {
  invitationId : string;
  guestName : string;
  guestPhone : string;
  employeeName : string;
  scannedAt : string;
  securityLevel : Z }.

End PendingL3Scan.

Module PendingL4Otp.

Record t : Type := mk {
  invitationId : string;
  guestName : string;
  guestPhone : string;
  employeeName : string;
  expiresAt : string;
  generatedAt : string;
  securityLevel : Z }.

End PendingL4Otp.

(** The [response.data] that [checkPendingActions] destructures. *)
Record PendingActions : Type := mkPendingActions {
  hasL3Scans : bool;
  hasL4Otps : bool;
  pendingL3Scans : list PendingL3Scan.t;
  pendingL4Otps : list PendingL4Otp.t }.

(** The [useState] cells of [MyQRScreen]. *)
Record State : Type := mkState {
  qrData : option string;
  isLoading : bool;
  showL3Modal : bool;
  showL4Modal : bool;
  l3ScanData : option PendingL3Scan.t;
  l4OtpData : option PendingL4Otp.t;
  otpInput : string;
  isVerifyingOtp : bool }.

(** The state of the first render. *)
Definition initial : State :=
  mkState None true false false None None "" false.

Definition setQrData (v : option string) (s : State) : State :=
  mkState v (isLoading s) (showL3Modal s) (showL4Modal s) (l3ScanData s)
    (l4OtpData s) (otpInput s) (isVerifyingOtp s).

Definition setIsLoading (v : bool) (s : State) : State :=
  mkState (qrData s) v (showL3Modal s) (showL4Modal s) (l3ScanData s)
    (l4OtpData s) (otpInput s) (isVerifyingOtp s).

Definition setShowL3Modal (v : bool) (s : State) : State :=
  mkState (qrData s) (isLoading s) v (showL4Modal s) (l3ScanData s)
    (l4OtpData s) (otpInput s) (isVerifyingOtp s).

Definition setShowL4Modal (v : bool) (s : State) : State :=
  mkState (qrData s) (isLoading s) (showL3Modal s) v (l3ScanData s)
    (l4OtpData s) (otpInput s) (isVerifyingOtp s).

Definition setL3ScanData (v : option PendingL3Scan.t) (s : State) : State :=
  mkState (qrData s) (isLoading s) (showL3Modal s) (showL4Modal s) v
    (l4OtpData s) (otpInput s) (isVerifyingOtp s).

Definition setL4OtpData (v : option PendingL4Otp.t) (s : State) : State :=
  mkState (qrData s) (isLoading s) (showL3Modal s) (showL4Modal s)
    (l3ScanData s) v (otpInput s) (isVerifyingOtp s).

Definition setOtpInput (v : string) (s : State) : State :=
  mkState (qrData s) (isLoading s) (showL3Modal s) (showL4Modal s)
    (l3ScanData s) (l4OtpData s) v (isVerifyingOtp s).

Definition setIsVerifyingOtp (v : bool) (s : State) : State :=
  mkState (qrData s) (isLoading s) (showL3Modal s) (showL4Modal s)
    (l3ScanData s) (l4OtpData s) (otpInput s) v.

Inductive Effect : Type :=
| Alert (title text : string)
| ConsoleError (label text : string)
| Call (op : ApiService.Operation).

(** A handler suspended at its [await]; [handleVerifyOtp] reads the
    [l4OtpData] of its own render when it resumes. *)
Inductive Pending : Type :=
| AwaitGuardQR
| AwaitVerifyOtp (seen : PendingL4Otp.t).

(** The screen, the interval of [pollingIntervalRef] (armed or [null]), the
    suspended handlers, the number of Access Granted alerts whose OK button
    has not been pressed yet, and the effects so far. *)
Record World : Type := mkWorld {
  ui : State;
  pollingIntervalRef : bool;
  inflight : list Pending;
  granted_alerts : nat;
  effects : list Effect }.

Definition update (f : State -> State) (w : World) : World :=
  mkWorld (f (ui w)) (pollingIntervalRef w) (inflight w) (granted_alerts w)
    (effects w).

Definition emit (e : Effect) (w : World) : World :=
  mkWorld (ui w) (pollingIntervalRef w) (inflight w) (granted_alerts w)
    (effects w ++ [e]).

Definition suspend (p : Pending) (w : World) : World :=
  mkWorld (ui w) (pollingIntervalRef w) (inflight w ++ [p]) (granted_alerts w)
    (effects w).

Definition resume (n : nat) (w : World) : World :=
  mkWorld (ui w) (pollingIntervalRef w) (delete n (inflight w))
    (granted_alerts w) (effects w).

Definition setInterval (armed : bool) (w : World) : World :=
  mkWorld (ui w) armed (inflight w) (granted_alerts w) (effects w).

Definition setGrantedAlerts (k : nat) (w : World) : World :=
  mkWorld (ui w) (pollingIntervalRef w) (inflight w) k (effects w).

(** [loadQRCode] up to [await apiService.getGuardQR()]. *)
Definition loadQRCode (w : World) : World :=
  let w := update (setIsLoading true) w in
  let w := emit (Call ApiService.getGuardQR) w in
  suspend AwaitGuardQR w.

(** [loadQRCode] from the response to its end. *)
Definition loadQRCode_settled
    (response : ApiService.ApiResponse ApiService.GuardQRResponse)
    (w : World) : World :=
  let w :=
    match ApiService.success response, ApiService.data response with
    | true, Some d => update (setQrData (Some (ApiService.qrCode d))) w
    | _, _ => w
    end in
  update (setIsLoading false) w.

Section Polling.

(** The names the imported [apiService] object answers to. *)
Variable members : list string.

(** [checkPendingActions], one poll.  [seen] is the render whose closure the
    function belongs to: its [showL3Modal] and [showL4Modal] are the ones the
    two guards read, while the setters act on the screen as it is when the
    call settles.  Calling a name the object does not have throws a
    [TypeError] inside the [try]; the [catch] logs it. *)
Definition checkPendingActions (seen : State)
    (response : ApiService.ApiResponse PendingActions) (w : World) : World :=
  if bool_decide ("checkPendingActions" ∈ members) then
    match ApiService.success response, ApiService.data response with
    | true, Some d =>
        let w :=
          if hasL3Scans d && (0 <? length (pendingL3Scans d))%nat
             && negb (showL3Modal seen)
          then
            let w := update (setL3ScanData (pendingL3Scans d !! 0%nat)) w in
            update (setShowL3Modal true) w
          else w in
        if hasL4Otps d && (0 <? length (pendingL4Otps d))%nat
           && negb (showL4Modal seen)
        then
          let w := update (setL4OtpData (pendingL4Otps d !! 0%nat)) w in
          update (setShowL4Modal true) w
        else w
    | _, _ => w
    end
  else
    emit (ConsoleError "Polling error:"
            "apiService.checkPendingActions is not a function") w.

(** [startPolling] runs once, in the effect of the first render
    ([useEffect(..., [])]): the immediate check and the callback given to
    [setInterval] both call the [checkPendingActions] of that render, so the
    closure of every poll is the one of [initial]. *)
Definition poll (response : ApiService.ApiResponse PendingActions)
    (w : World) : World :=
  checkPendingActions initial response w.

End Polling.

(** The screen after the mount effect: [loadQRCode()] is suspended and the
    interval is armed (the immediate check of [startPolling] is the first
    [tick]). *)
Definition mounted : World :=
  setInterval true (loadQRCode (mkWorld initial false [] 0 [])).

(** [stopPolling] *)
Definition stopPolling (w : World) : World :=
  if pollingIntervalRef w then setInterval false w else w.

(** [handleL3Acknowledge] *)
Definition handleL3Acknowledge (w : World) : World :=
  let w := update (setShowL3Modal false) w in
  update (setL3ScanData None) w.

(** [handleCancelL4] *)
Definition handleCancelL4 (w : World) : World :=
  let w := update (setShowL4Modal false) w in
  let w := update (setL4OtpData None) w in
  update (setOtpInput "") w.

(** [handleVerifyOtp] up to [await apiService.verifyOtp(...)]: the one object
    it passes arrives as the first parameter of [verifyOtp], the other two
    are [undefined]. *)
Definition handleVerifyOtp (w : World) : World :=
  match JS.empty (otpInput (ui w)), l4OtpData (ui w) with
  | false, Some pending =>
      let argument :=
        JS.Obj [("invitationId", JS.Str (PendingL4Otp.invitationId pending));
                ("otpCode", JS.Str (otpInput (ui w)))] in
      let w := update (setIsVerifyingOtp true) w in
      let w := emit (Call (ApiService.verifyOtp argument JS.Undefined
                             JS.Undefined)) w in
      suspend (AwaitVerifyOtp pending) w
  | _, _ => w
  end.

(** [handleVerifyOtp] from the response to its end. *)
Definition handleVerifyOtp_settled (seen : PendingL4Otp.t)
    (response : ApiService.ApiResponse ApiService.VerifyOTPResponse.t)
    (w : World) : World :=
  let w :=
    if ApiService.success response then
      let w := emit (Alert "Access Granted"
                 (PendingL4Otp.guestName seen
                  +:+ " has been granted access (Level 4)")) w in
      setGrantedAlerts (S (granted_alerts w)) w
    else
      emit (Alert "Error"
              (JS.or_else (ApiService.error response) "Invalid OTP code")) w in
  update (setIsVerifyingOtp false) w.

(** The [onPress] of the OK button of an Access Granted alert. *)
Definition alertOk (w : World) : World :=
  let w := update (setShowL4Modal false) w in
  let w := update (setL4OtpData None) w in
  update (setOtpInput "") w.

(** *** The rendered screen

    While [isLoading] the screen renders the spinner only.  Otherwise the
    two modals are visible by their flags, the text field of the tier-four
    modal is rendered when [l4OtpData] is set and takes at most six
    characters, and its Verify button is disabled while a verification is
    running or the input is not six characters long. *)

Inductive Reply : Type :=
| GuardQRReply (response : ApiService.ApiResponse ApiService.GuardQRResponse)
| VerifyOtpReply
    (response : ApiService.ApiResponse ApiService.VerifyOTPResponse.t).

Inductive Event : Type :=
| tick (response : ApiService.ApiResponse PendingActions)
| pressRefresh
| pressAcknowledge
| changeOtpInput (text : string)
| pressVerify
| pressCancel
| pressAlertOk
| unmount
| settled (n : nat) (reply : Reply).

(** [disabled] of the Verify OTP button. *)
Definition verify_disabled (s : State) : bool :=
  isVerifyingOtp s || negb (String.length (otpInput s) =? 6)%nat.

Definition step (members : list string) (e : Event) (w : World) : World :=
  let s := ui w in
  match e with
  | tick response =>
      if pollingIntervalRef w then poll members response w else w
  | pressRefresh =>
      if isLoading s || showL3Modal s || showL4Modal s then w
      else loadQRCode w
  | pressAcknowledge =>
      if negb (isLoading s) && showL3Modal s then handleL3Acknowledge w
      else w
  | changeOtpInput text =>
      if negb (isLoading s) && showL4Modal s && bool_decide (is_Some (l4OtpData s))
         && (String.length text <=? 6)%nat
      then update (setOtpInput text) w else w
  | pressVerify =>
      if negb (isLoading s) && showL4Modal s && negb (verify_disabled s)
      then handleVerifyOtp w else w
  | pressCancel =>
      if negb (isLoading s) && showL4Modal s then handleCancelL4 w else w
  | pressAlertOk =>
      match granted_alerts w with
      | O => w
      | S k => alertOk (setGrantedAlerts k w)
      end
  | unmount => stopPolling w
  | settled n reply =>
      match inflight w !! n, reply with
      | Some AwaitGuardQR, GuardQRReply response =>
          loadQRCode_settled response (resume n w)
      | Some (AwaitVerifyOtp seen), VerifyOtpReply response =>
          handleVerifyOtp_settled seen response (resume n w)
      | _, _ => w
      end
  end.

Definition run (members : list string) (events : list Event) (w : World)
  : World :=
  foldl (fun w e => step members e w) w events.

(** Nothing is surfaced: neither modal is up and neither item is set. *)
Definition quiet (s : State) : Prop :=
  showL3Modal s = false /\ showL4Modal s = false
  /\ l3ScanData s = None /\ l4OtpData s = None.

End MyQR.

(** ** app/index.tsx, the splash screen *)

Module Splash.

(** The effect of the splash screen: nothing while the provider is loading,
    then [router.replace] to the tabs or to the login screen. *)
Definition redirect (auth : AuthContext.State) : option string :=
  if AuthContext.isLoading auth then None
  else if AuthContext.isAuthenticated auth then Some "/(tabs)"
  else Some "/login".

End Splash.

(** ** app/(auth)/login.tsx *)

Module Login.

Module Errors.

Record t : Type := mk {
  username : string;
  password : string }.

End Errors.

(** The [useState] cells of [LoginScreen]. *)
Record State : Type := mkState {
  username : string;
  password : string;
  showPassword : bool;
  rememberMe : bool;
  errors : Errors.t;
  isSubmitting : bool }.

Definition initial : State :=
  mkState "" "" false false (Errors.mk "" "") false.

Definition setUsername (v : string) (s : State) : State :=
  mkState v (password s) (showPassword s) (rememberMe s) (errors s)
    (isSubmitting s).

Definition setPassword (v : string) (s : State) : State :=
  mkState (username s) v (showPassword s) (rememberMe s) (errors s)
    (isSubmitting s).

Definition setShowPassword (v : bool) (s : State) : State :=
  mkState (username s) (password s) v (rememberMe s) (errors s)
    (isSubmitting s).

Definition setRememberMe (v : bool) (s : State) : State :=
  mkState (username s) (password s) (showPassword s) v (errors s)
    (isSubmitting s).

Definition setErrors (v : Errors.t) (s : State) : State :=
  mkState (username s) (password s) (showPassword s) (rememberMe s) v
    (isSubmitting s).

Definition setIsSubmitting (v : bool) (s : State) : State :=
  mkState (username s) (password s) (showPassword s) (rememberMe s)
    (errors s) v.

(** [validateForm]: the messages it sets and the verdict it returns. *)
Definition validateForm (s : State) : State * bool :=
  let username_error :=
    if JS.blank (username s) then "Username is required" else "" in
  let password_error :=
    if JS.blank (password s) then "Password is required"
    else if (String.length (password s) <? 6)%nat
         then "Password must be at least 6 characters"
         else "" in
  let isValid :=
    negb (JS.blank (username s))
    && negb (JS.blank (password s) || (String.length (password s) <? 6)%nat) in
  (setErrors (Errors.mk username_error password_error) s, isValid).

Inductive Effect : Type :=
| Request (request : ApiService.Request)
| Replace (route : string)
| Alert (title text : string).

Section Screen.

Variable JSON_stringify : JS.Value -> string.
Variable device : AuthContext.DeviceInfo.

(** [handleLogin] from the press to its end, given what the network does
    with the login request (the fields and the button are disabled while it
    is in flight).  The user name goes out trimmed, the password as typed. *)
Definition handleLogin
    (t : ApiService.Transport ApiService.LoginResponse)
    (store : SecureStore.Store) (auth : AuthContext.State) (s : State)
  : SecureStore.Store * AuthContext.State * State * list Effect :=
  let '(s, isValid) := validateForm s in
  if negb isValid then (store, auth, s, [])
  else
    let request :=
      ApiService.sent
        (ApiService.login
           (AuthContext.credentials device (JS.trim (username s))
              (password s))) store in
    let '(store, auth, result) :=
      AuthContext.login JSON_stringify device (JS.trim (username s))
        (password s) t store auth in
    let shown :=
      if AuthContext.success result then Replace "/(tabs)"
      else Alert "Login Failed"
             (JS.or_else (AuthContext.error result)
                "Invalid credentials. Please try again.") in
    (store, auth, setIsSubmitting false s, [Request request; shown]).

End Screen.

(** The [onChangeText] of the two fields: the text is set and a message
    shown for that field is cleared. *)
Definition changeUsername (text : string) (s : State) : State :=
  let s' := setUsername text s in
  if negb (JS.empty (Errors.username (errors s)))
  then setErrors (Errors.mk "" (Errors.password (errors s))) s'
  else s'.

Definition changePassword (text : string) (s : State) : State :=
  let s' := setPassword text s in
  if negb (JS.empty (Errors.password (errors s)))
  then setErrors (Errors.mk (Errors.username (errors s)) "") s'
  else s'.

End Login.

(** ** app/(tabs)/activity.tsx *)

Module Activity.

Module RecentScanEvent := ApiService.RecentScanEvent.

Inductive Filter : Type := all | success | failed.

(** The [useState] cells of [ActivityScreen]. *)
Record State : Type := mkState {
  activities : list RecentScanEvent.t;
  isLoading : bool;
  refreshing : bool;
  filter : Filter }.

Definition initial : State := mkState [] true false all.

Definition setActivities (v : list RecentScanEvent.t) (s : State) : State :=
  mkState v (isLoading s) (refreshing s) (filter s).

Definition setIsLoading (v : bool) (s : State) : State :=
  mkState (activities s) v (refreshing s) (filter s).

Definition setRefreshing (v : bool) (s : State) : State :=
  mkState (activities s) (isLoading s) v (filter s).

Definition setFilter (v : Filter) (s : State) : State :=
  mkState (activities s) (isLoading s) (refreshing s) v.

(** The predicate of [activities.filter(...)]. *)
Definition keeps (f : Filter) (activity : RecentScanEvent.t) : bool :=
  match f with
  | all => true
  | success => RecentScanEvent.success activity
  | failed => negb (RecentScanEvent.success activity)
  end.

(** [filteredActivities] *)
Definition filteredActivities (s : State) : list RecentScanEvent.t :=
  List.filter (keeps (filter s)) (activities s).

(** [loadActivities] from the answer of [getDashboard] to its end. *)
Definition loadActivities_settled
    (response : ApiService.ApiResponse ApiService.DashboardStats)
    (s : State) : State :=
  let s :=
    match ApiService.success response, ApiService.data response with
    | true, Some d =>
        setActivities (default [] (ApiService.recentActivity d)) s
    | _, _ => s
    end in
  setIsLoading false s.

(** Who awaits [loadActivities]: the mount effect, or [onRefresh], which
    clears [refreshing] when it returns. *)
Inductive Caller : Type := Mount | Refresh.

Record World : Type := mkWorld {
  ui : State;
  inflight : list Caller;
  requests : nat }.

(** [loadActivities] up to [await apiService.getDashboard()]. *)
Definition loadActivities (caller : Caller) (w : World) : World :=
  mkWorld (setIsLoading true (ui w)) (inflight w ++ [caller]) (S (requests w)).

(** [onRefresh] up to the [await]. *)
Definition onRefresh (w : World) : World :=
  loadActivities Refresh
    (mkWorld (setRefreshing true (ui w)) (inflight w) (requests w)).

(** The screen after the mount effect. *)
Definition mounted : World := loadActivities Mount (mkWorld initial [] 0).

Inductive Event : Type :=
| pressFilter (f : Filter)
| pullToRefresh
| settled (n : nat)
    (response : ApiService.ApiResponse ApiService.DashboardStats).

(** The filter buttons and the list with its refresh control are rendered
    only when [isLoading] is false, and a refresh control that shows
    [refreshing] does not fire [onRefresh] again. *)
Definition step (e : Event) (w : World) : World :=
  match e with
  | pressFilter f =>
      if isLoading (ui w) then w
      else mkWorld (setFilter f (ui w)) (inflight w) (requests w)
  | pullToRefresh =>
      if isLoading (ui w) || refreshing (ui w) then w else onRefresh w
  | settled n response =>
      match inflight w !! n with
      | Some caller =>
          let s := loadActivities_settled response (ui w) in
          let s := match caller with
                   | Mount => s
                   | Refresh => setRefreshing false s
                   end in
          mkWorld s (delete n (inflight w)) (requests w)
      | None => w
      end
  end.

Definition run (events : list Event) (w : World) : World :=
  foldl (fun w e => step e w) w events.

(** [getLevelColor] *)
Definition getLevelColor (level : Z) : string :=
  if (level =? 1)%Z then "#3B82F620"
  else if (level =? 2)%Z then "#10B98120"
  else if (level =? 3)%Z then "#F59E0B20"
  else if (level =? 4)%Z then "#EF444420"
  else "#64748B20".

Section Clock.

(** [new Date(timestamp).getTime()] in milliseconds, [None] for the [NaN]
    of a text that is no date; and [date.toLocaleString('en-US', options)],
    which is the platform's. *)
Variable Date_getTime : string -> option Z.
Variable toLocaleString : option Z -> string.

(** [formatTime] at the moment [now] (milliseconds).  With [NaN] every
    comparison is false and the locale string is returned. *)
Definition formatTime (now : Z) (timestamp : string) : string :=
  match Date_getTime timestamp with
  | None => toLocaleString None
  | Some date =>
      let diff := ((now - date) / 1000)%Z in
      if (diff <? 60)%Z then "Just now"
      else if (diff <? 3600)%Z then pretty (diff / 60)%Z +:+ "m ago"
      else if (diff <? 86400)%Z then pretty (diff / 3600)%Z +:+ "h ago"
      else toLocaleString (Some date)
  end.

End Clock.

End Activity.

(** ** app/(tabs)/index.tsx, the dashboard *)

Module Dashboard.

(** The [useState] cells of [DashboardScreen]. *)
Record State : Type := mkState {
  dashboardData : option ApiService.DashboardStats;
  isLoading : bool;
  refreshing : bool }.

Definition initial : State := mkState None true false.

Definition setDashboardData (v : option ApiService.DashboardStats)
    (s : State) : State :=
  mkState v (isLoading s) (refreshing s).

Definition setIsLoading (v : bool) (s : State) : State :=
  mkState (dashboardData s) v (refreshing s).

Definition setRefreshing (v : bool) (s : State) : State :=
  mkState (dashboardData s) (isLoading s) v.

(** [loadDashboard] from the answer of [getDashboard] to its end. *)
Definition loadDashboard_settled
    (response : ApiService.ApiResponse ApiService.DashboardStats)
    (s : State) : State :=
  let s :=
    match ApiService.success response, ApiService.data response with
    | true, Some d => setDashboardData (Some d) s
    | _, _ => s
    end in
  setIsLoading false s.

Inductive Caller : Type := Mount | Refresh.

Record World : Type := mkWorld {
  ui : State;
  inflight : list Caller;
  requests : nat }.

(** [loadDashboard] up to [await apiService.getDashboard()]. *)
Definition loadDashboard (caller : Caller) (w : World) : World :=
  mkWorld (setIsLoading true (ui w)) (inflight w ++ [caller]) (S (requests w)).

(** [onRefresh] up to the [await]. *)
Definition onRefresh (w : World) : World :=
  loadDashboard Refresh
    (mkWorld (setRefreshing true (ui w)) (inflight w) (requests w)).

Definition mounted : World := loadDashboard Mount (mkWorld initial [] 0).

(** The spinner replaces the screen while [isLoading && !dashboardData]. *)
Definition shows_spinner (s : State) : bool :=
  isLoading s && negb (bool_decide (is_Some (dashboardData s))).

Inductive Event : Type :=
| pullToRefresh
| settled (n : nat)
    (response : ApiService.ApiResponse ApiService.DashboardStats).

(** The scroll view with its refresh control is rendered when the spinner
    is not, and a refresh control that shows [refreshing] does not fire
    [onRefresh] again. *)
Definition step (e : Event) (w : World) : World :=
  match e with
  | pullToRefresh =>
      if shows_spinner (ui w) || refreshing (ui w) then w else onRefresh w
  | settled n response =>
      match inflight w !! n with
      | Some caller =>
          let s := loadDashboard_settled response (ui w) in
          let s := match caller with
                   | Mount => s
                   | Refresh => setRefreshing false s
                   end in
          mkWorld s (delete n (inflight w)) (requests w)
      | None => w
      end
  end.

Definition run (events : list Event) (w : World) : World :=
  foldl (fun w e => step e w) w events.

(** The rows of Recent Activity: [recentActivity.slice(0, 5)], or none when
    the list is missing or empty. *)
Definition recent_shown (s : State) : list ApiService.RecentScanEvent.t :=
  match dashboardData s with
  | Some d => take 5 (default [] (ApiService.recentActivity d))
  | None => []
  end.

End Dashboard.

(** ** What the scanner keeps true *)

Module ScannerSafety.

Import Scanner.

(** A suspended scan holds a complete payload. *)
Definition payload_ok (p : Pending) : bool :=
  match p with
  | AwaitScanGuest parsedData _ => complete parsedData
  | AwaitVerifyOtp _ => true
  end.

(** [pendingOtpData] is [null] or a complete payload. *)
Definition retained_ok (s : State) : bool :=
  match pendingOtpData s with
  | JS.Null => true
  | parsedData => complete parsedData
  end.

(** A request of the scanner: a scan with a usable [invitationId] and
    [qrCode], or a verification with both and a code that is a non-blank
    string of at most six characters. *)
Definition request_ok (op : ApiService.Operation) : bool :=
  match op with
  | ApiService.scanGuest invitationId qrCode =>
      JS.truthy invitationId && JS.truthy qrCode
  | ApiService.verifyOtp invitationId qrCode (JS.Str code) =>
      JS.truthy invitationId && JS.truthy qrCode
      && negb (JS.blank code) && (String.length code <=? 6)%nat
  | _ => false
  end.

Definition safe (w : World) : Prop :=
  Forall (fun p => payload_ok p = true) (inflight w)
  /\ retained_ok (ui w) = true
  /\ implb (showOtpModal (ui w)) (complete (pendingOtpData (ui w))) = true
  /\ (String.length (otpCode (ui w)) <=? 6)%nat = true
  /\ forallb request_ok (calls (effects w)) = true.


(** An event that is not an accepted answer of the server: every event of
    the guard, and every answer that fails or carries no data. *)
Definition accepts {T} (response : ApiService.ApiResponse T) : bool :=
  ApiService.success response
  && bool_decide (is_Some (ApiService.data response)).

Definition refusing (e : Event) : bool :=
  match e with
  | settled _ (ScanGuestReply response) => negb (accepts response)
  | settled _ (VerifyOtpReply response) => negb (accepts response)
  | _ => true
  end.

(** The result card holds no success. *)
Definition not_granted (s : State) : bool :=
  match scanResult s with
  | Some result => negb (success result)
  | None => true
  end.

End ScannerSafety.

(** ** What the guard-QR screen keeps true *)

Module PollerSafety.

Import MyQR.

(** The requests among the effects. *)
Definition calls (l : list Effect) : list ApiService.Operation :=
  omap (fun e => match e with Call op => Some op | _ => None end) l.

(** A request of the guard-QR screen: the QR fetch, or a verification whose
    one argument holds an invitation and a code of exactly six characters. *)
Definition request_ok (op : ApiService.Operation) : bool :=
  match op with
  | ApiService.getGuardQR => true
  | ApiService.verifyOtp
      (JS.Obj [("invitationId", JS.Str _); ("otpCode", JS.Str code)])
      JS.Undefined JS.Undefined =>
      (String.length code =? 6)%nat
  | _ => false
  end.





End PollerSafety.

(** ** Sample data

    The payload, the answers and the pending items of the scenarios, and a
    stand-in for [JSON.parse] that knows the texts of the scenarios. *)

Module Sample.

Definition quoted (s : string) : string :=
  String (Ascii.ascii_of_nat 34) (s +:+ String (Ascii.ascii_of_nat 34) "").

Definition payload_text_of (invitationId qrCode : string) : string :=
  "{" +:+ quoted "invitationId" +:+ ":" +:+ quoted invitationId +:+ ","
  +:+ quoted "qrCode" +:+ ":" +:+ quoted qrCode +:+ "}".

Definition payload_of (invitationId qrCode : string) : JS.Value :=
  JS.Obj [("invitationId", JS.Str invitationId); ("qrCode", JS.Str qrCode)].

(** The text of the first guest's code, with [invitationId] inv1 and
    [qrCode] q1, and of a second guest's. *)
Definition payload_text : string := payload_text_of "inv1" "q1".
Definition payload : JS.Value := payload_of "inv1" "q1".
Definition other_text : string := payload_text_of "inv2" "q2".
Definition other : JS.Value := payload_of "inv2" "q2".

(** A text with no [qrCode]. *)
Definition incomplete_text : string :=
  "{" +:+ quoted "invitationId" +:+ ":" +:+ quoted "inv1" +:+ "}".

Definition JSON_parse (text : string) : option JS.Value :=
  if String.eqb text payload_text then Some payload
  else if String.eqb text other_text then Some other
  else if String.eqb text incomplete_text
       then Some (JS.Obj [("invitationId", JS.Str "inv1")])
  else if String.eqb text "null" then Some JS.Null
  else None.

Definition alice : ApiService.ScanGuestResponse.Invitation :=
  ApiService.ScanGuestResponse.mkInvitation "inv1" (Some "Alice")
    "+15550100" "Bob" "+15550101" 2 "2025-01-01T08:00:00Z"
    "2025-01-01T18:00:00Z" ("Acme", "office") false.

Definition pending_otp : ApiService.ApiResponse ApiService.ScanGuestResponse.t :=
  ApiService.mkResponse true
    (Some (ApiService.ScanGuestResponse.mk "pending_otp" "OTP sent" alice))
    None None.

Definition granted : ApiService.ApiResponse ApiService.ScanGuestResponse.t :=
  ApiService.mkResponse true
    (Some (ApiService.ScanGuestResponse.mk "success" "Access Granted"
             (ApiService.ScanGuestResponse.mkInvitation "inv1" (Some "Alice")
                "+15550100" "Bob" "+15550101" 1 "2025-01-01T08:00:00Z"
                "2025-01-01T18:00:00Z" ("Acme", "office") true)))
    None None.


Definition wrong_otp : ApiService.ApiResponse ApiService.VerifyOTPResponse.t :=
  ApiService.mkResponse false None None (Some "Invalid OTP").




(** The scanner with a verification of the code 111111 in flight. *)
Definition verifying : Scanner.World :=
  Scanner.run JSON_parse
    [Scanner.onBarcodeScanned payload_text;
     Scanner.settled 0 (Scanner.ScanGuestReply pending_otp);
     Scanner.changeOtpText "111111"; Scanner.pressVerify] Scanner.start.



(** The guard of the session scenarios, the text the profile is stored
    as, and stand-ins for [JSON.stringify] and [JSON.parse] that know them. *)
Definition guard_profile : JS.Value :=
  JS.Obj [("id", JS.Str "g1"); ("username", JS.Str "guard1");
          ("status", JS.Str "active")].

Definition guard_text : string :=
  "{" +:+ quoted "id" +:+ ":" +:+ quoted "g1" +:+ ","
  +:+ quoted "username" +:+ ":" +:+ quoted "guard1" +:+ ","
  +:+ quoted "status" +:+ ":" +:+ quoted "active" +:+ "}".

Definition JSON_stringify (v : JS.Value) : string :=
  match v with
  | JS.Obj [("id", JS.Str "g1"); ("username", JS.Str "guard1");
            ("status", JS.Str "active")] => guard_text
  | _ => "null"
  end.

Definition parse_profile (text : string) : option JS.Value :=
  if String.eqb text guard_text then Some guard_profile
  else if String.eqb text "null" then Some JS.Null
  else None.

Definition device : AuthContext.DeviceInfo :=
  AuthContext.mkDeviceInfo None (Some "Pixel 8") (Some "14").

Definition logged_in : ApiService.ApiResponse ApiService.LoginResponse :=
  ApiService.mkResponse true
    (Some (ApiService.mkLoginResponse "t0k3n" guard_profile)) None None.

Definition bad_credentials : ApiService.ApiResponse ApiService.LoginResponse :=
  ApiService.mkResponse false None (Some "Invalid username or password") None.

(** A login form filled in, with spaces around the user name. *)
Definition filled_in : Login.State :=
  Login.mkState " guard1 " "secret1" false false (Login.Errors.mk "" "") false.




(** A dashboard answer with one granted and one denied scan. *)
Definition scans : list ApiService.RecentScanEvent.t :=
  [ApiService.RecentScanEvent.mk "e1" "2025-01-01T09:00:00Z" true None 1
     "Alice" "+15550100" "active";
   ApiService.RecentScanEvent.mk "e2" "2025-01-01T09:01:00Z" false
     (Some "Expired") 2 "Frank" "+15550106" "expired"].

Definition dashboard : ApiService.DashboardStats :=
  ApiService.mkDashboardStats
    (ApiService.mkTotals 2 1 1 50) (ApiService.mkTotals 2 1 1 50) 3
    (Some scans).

Definition dashboard_loaded
  : ApiService.ApiResponse ApiService.DashboardStats :=
  ApiService.mkResponse true (Some dashboard) None None.

Definition dashboard_failed
  : ApiService.ApiResponse ApiService.DashboardStats :=
  ApiService.mkResponse false None None (Some "Network Error").

End Sample.

(** * Properties *)

(** ** The gateway and the secure store *)

Module ApiServiceFacts.

Import SecureStore ApiService.

Lemma settle_unauthorized {T} (reply : ApiResponse T) :
  settle (Responded 401 reply)
  = inr (mkAxiosError "Request failed with status code 401"
           (Some (401%Z, reply))).
Proof. reflexivity. Qed.

(** Only a 401 makes the response interceptor write to the store. *)
Lemma response_interceptor_other {T} (e : AxiosError T) (store : Store) :
  is_unauthorized e = false -> response_interceptor e store = store.
Proof. unfold response_interceptor. by intros ->. Qed.

(** A resolved call leaves the store alone. *)
Lemma perform_resolved {T} (op : Operation) (status : Z)
    (reply : ApiResponse T) (store : Store) :
  validateStatus status = true ->
  perform op (Responded status reply) store = (store, reply).
Proof. unfold perform, settle. by intros ->. Qed.

(** C4. Whatever the operation and whatever the body of the answer, a
    response with status 401 makes the operation return a failure to its
    caller with the session token already deleted from the secure store. *)
Theorem unauthorized_clears_token {T} (op : Operation)
    (reply : ApiResponse T) (store : Store) :
  let outcome := perform op (Responded 401 reply) store in
  outcome.1 = deleteItemAsync "auth_token" store
  /\ getItemAsync "auth_token" outcome.1 = None
  /\ success outcome.2 = false
  /\ data outcome.2 = None.
Proof.
  intros outcome. subst outcome. unfold perform.
  rewrite settle_unauthorized. cbn [fst snd handleError success data].
  repeat split. unfold response_interceptor, is_unauthorized.
  cbn. unfold getItemAsync, deleteItemAsync. apply lookup_delete_eq.
Qed.

(** C10. A 401 deletes the token and nothing else: the store afterwards is
    the store before without [auth_token], so the cached profile under
    [guard_data] is still what it was.  The explicit logout of the auth
    context leaves neither key. *)
Theorem unauthorized_keeps_guard_data {T} (op : Operation)
    (reply : ApiResponse T) (store : Store) (st : AuthContext.State) :
  let after_401 := (perform op (Responded 401 reply) store).1 in
  let after_logout := (AuthContext.logout store st).1 in
  after_401 = delete "auth_token" store
  /\ getItemAsync "guard_data" after_401 = getItemAsync "guard_data" store
  /\ getItemAsync "auth_token" after_logout = None
  /\ getItemAsync "guard_data" after_logout = None.
Proof.
  intros after_401 after_logout. subst after_401 after_logout.
  unfold perform. rewrite settle_unauthorized.
  unfold AuthContext.logout, ApiService.logout, response_interceptor,
    is_unauthorized.
  cbn. unfold getItemAsync, deleteItemAsync. split; [done|]. split.
  - by rewrite lookup_delete_ne.
  - split.
    + rewrite lookup_delete_ne by done. apply lookup_delete_eq.
    + apply lookup_delete_eq.
Qed.

(** A store that holds both keys: after a 401 the profile is still there. *)
Example guard_data_survives :
  let store : Store := <["auth_token" := "t0k3n"]> (<["guard_data" := "{}"]> ∅) in
  getItemAsync "guard_data"
    (perform (T := unit) getDashboard
       (Responded 401 (mkResponse false None None None)) store).1
  = Some "{}".
Proof. vm_compute. reflexivity. Qed.

End ApiServiceFacts.

(** ** The scanner *)

Module ScannerFacts.

Import Scanner.

(** Only an object passes the test of the two fields. *)
Lemma complete_is_object (parsedData : JS.Value) :
  complete parsedData = true -> exists fields, parsedData = JS.Obj fields.
Proof. destruct parsedData; try discriminate. eauto. Qed.

Lemma complete_truthy (parsedData : JS.Value) :
  complete parsedData = true -> JS.truthy parsedData = true.
Proof. intros [fields ->]%complete_is_object. reflexivity. Qed.

Ltac run_handlers :=
  cbn -[String.length Nat.leb JS.blank JS.truthy JS.prop JS.or_else].

Section WithParser.

Variable JSON_parse : string -> option JS.Value.

(** The code's test of the payload agrees with the two classes. *)
Lemma parse_payload_well_formed (qrData : string) (parsedData : JS.Value) :
  well_formed JSON_parse qrData parsedData ->
  parse_payload JSON_parse qrData = inr parsedData.
Proof.
  intros [Hparse Hcomplete]. unfold parse_payload. rewrite Hparse.
  destruct (complete_is_object _ Hcomplete) as [fields ->].
  unfold complete in Hcomplete. cbn in *.
  apply andb_true_iff in Hcomplete as [-> ->]. reflexivity.
Qed.



(** The call that [processScan] suspends on is the last one in flight, and
    resuming it leaves the others as they were. *)
Lemma lookup_suspended (pending : list Pending) (p : Pending) :
  (pending ++ [p]) !! length pending = Some p.
Proof. by apply list_lookup_middle. Qed.

Lemma delete_suspended (pending : list Pending) (p : Pending) :
  delete (length pending) (pending ++ [p]) = pending.
Proof. by rewrite delete_middle, app_nil_r. Qed.

Lemma calls_app (l1 l2 : list Effect) : calls (l1 ++ l2) = calls l1 ++ calls l2.
Proof. apply omap_app. Qed.

(** A well-formed text makes [processScan] issue the one request and wait. *)
Lemma processScan_well_formed (qrData : string) (parsedData : JS.Value)
    (caller : Caller) (w : World) :
  well_formed JSON_parse qrData parsedData ->
  processScan JSON_parse qrData caller w
  = mkWorld (setIsProcessing true (ui w))
      (inflight w ++ [AwaitScanGuest parsedData caller])
      (effects w ++ [Call (ApiService.scanGuest
                             (JS.prop parsedData "invitationId")
                             (JS.prop parsedData "qrCode"))]).
Proof.
  intros Hwf. unfold processScan.
  by rewrite (parse_payload_well_formed _ _ Hwf).
Qed.

(** C1. A well-formed scan that the server answers with the pending-OTP
    shape puts the OTP modal up with the parsed payload kept as
    [pendingOtpData], and the verify request that follows, whatever non-blank
    code of at most six characters the guard enters, carries the
    [invitationId] and [qrCode] of the scan request and that code. *)
Theorem otp_round_trip (qrData : string) (parsedData : JS.Value)
    (caller : Caller)
    (response : ApiService.ApiResponse ScanGuestResponse.t)
    (d : ScanGuestResponse.t) (code : string) (w : World) :
  well_formed JSON_parse qrData parsedData ->
  requires_otp response d ->
  JS.blank code = false ->
  (String.length code <= 6)%nat ->
  let invitationId := JS.prop parsedData "invitationId" in
  let qrCode := JS.prop parsedData "qrCode" in
  let w1 := processScan JSON_parse qrData caller w in
  let w2 := step JSON_parse
              (settled (length (inflight w)) (ScanGuestReply response)) w1 in
  let w3 := step JSON_parse pressVerify
              (step JSON_parse (changeOtpText code) w2) in
  calls (effects w1)
    = calls (effects w) ++ [ApiService.scanGuest invitationId qrCode]
  /\ phase (ui w2) = OtpPending
  /\ pendingOtpData (ui w2) = parsedData
  /\ calls (effects w2) = calls (effects w1)
  /\ calls (effects w3)
    = calls (effects w2)
      ++ [ApiService.verifyOtp invitationId qrCode (JS.Str code)].
Proof.
  intros Hwf (Hsuccess & Hdata & Hstatus) Hcode Hlen.
  intros invitationId qrCode w1 w2 w3.
  assert (Htruthy : JS.truthy parsedData = true).
  { apply complete_truthy, Hwf. }
  apply Nat.leb_le in Hlen.
  subst w1 w2 w3. rewrite (processScan_well_formed _ _ caller w Hwf).
  unfold step. cbn [inflight ui effects].
  rewrite !lookup_suspended. unfold resume. cbn [inflight ui effects].
  rewrite !delete_suspended. unfold processScan_settled.
  rewrite Hsuccess, Hdata, Hstatus. cbn [String.eqb Ascii.eqb Bool.eqb].
  destruct w as [s pending done]. destruct s. cbn [ui inflight effects].
  destruct caller; cbn -[String.length Nat.leb JS.blank JS.truthy JS.prop].
  all: rewrite Hlen; cbn -[String.length Nat.leb JS.blank JS.truthy JS.prop].
  all: unfold verify_disabled, handleVerifyOtp.
  all: cbn -[String.length Nat.leb JS.blank JS.truthy JS.prop].
  all: rewrite Hcode, Htruthy.
  all: cbn -[String.length Nat.leb JS.blank JS.truthy JS.prop].
  all: unfold calls; rewrite !omap_app; cbn; rewrite ?app_nil_r.
  all: done.
Qed.

(** [processScan] and the end of a scan never take the OTP modal down. *)
Lemma processScan_keeps_modal (qrData : string) (caller : Caller) (w : World) :
  showOtpModal (ui w) = true ->
  showOtpModal (ui (processScan JSON_parse qrData caller w)) = true.
Proof.
  intros Hmodal. unfold processScan.
  destruct (parse_payload JSON_parse qrData), caller; exact Hmodal.
Qed.

Lemma processScan_settled_keeps_modal (parsedData : JS.Value) (caller : Caller)
    (response : ApiService.ApiResponse ScanGuestResponse.t) (w : World) :
  showOtpModal (ui w) = true ->
  showOtpModal (ui (processScan_settled parsedData caller response w)) = true.
Proof.
  intros Hmodal. unfold processScan_settled.
  destruct (ApiService.success response), (ApiService.data response) as [d|],
    caller; try exact Hmodal.
  all: destruct (String.eqb (ScanGuestResponse.status d) "pending_otp");
    [reflexivity|].
  all: destruct (String.eqb (ScanGuestResponse.status d) "success");
    exact Hmodal.
Qed.

(** C6. When the verify call fails or the server rejects the code, the
    handler changes nothing but [isProcessing]: the OTP modal stays up, the
    retained payload and the cached guest fields are what they were and no
    request goes out.  The guard can enter another code, and the new verify
    request carries the same payload.  From there the modal goes down only
    through the Cancel button or an accepted verification; Cancel returns
    the screen to the camera with the payload dropped. *)
Theorem failed_verify_stays_pending (seen : option ScanResult)
    (response : ApiService.ApiResponse VerifyOTPResponse.t) (n : nat)
    (code : string) (w : World) :
  rejected response ->
  inflight w !! n = Some (AwaitVerifyOtp seen) ->
  showOtpModal (ui w) = true ->
  JS.truthy (pendingOtpData (ui w)) = true ->
  JS.blank code = false ->
  (String.length code <= 6)%nat ->
  let w' := step JSON_parse (settled n (VerifyOtpReply response)) w in
  let retry := step JSON_parse pressVerify
                 (step JSON_parse (changeOtpText code) w') in
  let left := step JSON_parse pressCancel w' in
  ui w' = setIsProcessing false (ui w)
  /\ phase (ui w') = OtpPending
  /\ pendingOtpData (ui w') = pendingOtpData (ui w)
  /\ scanResult (ui w') = scanResult (ui w)
  /\ calls (effects w') = calls (effects w)
  /\ calls (effects retry)
     = calls (effects w)
       ++ [ApiService.verifyOtp
             (JS.prop (pendingOtpData (ui w)) "invitationId")
             (JS.prop (pendingOtpData (ui w)) "qrCode") (JS.Str code)]
  /\ (forall e : Event,
        showOtpModal (ui (step JSON_parse e w')) = true
        \/ e = pressCancel
        \/ exists m r d, e = settled m (VerifyOtpReply r) /\ accepted r d)
  /\ phase (ui left) = Scanning
  /\ pendingOtpData (ui left) = JS.Null
  /\ scanResult (ui left) = None.
Proof.
  intros Hrejected Hlookup Hmodal Htruthy Hcode Hlen w'.
  apply Nat.leb_le in Hlen.
  assert (Hw' : w' = mkWorld (setIsProcessing false (ui w))
                       (delete n (inflight w))
                       (effects w ++
                        [Haptic Error;
                         Alert "Error"
                           (JS.or_else
                              (Some (JS.or_else (ApiService.error response)
                                       "Invalid OTP"))
                              "OTP verification failed")])).
  { subst w'. unfold step. rewrite Hlookup. unfold handleVerifyOtp_settled.
    destruct Hrejected as [-> | ->];
      [|destruct (ApiService.success response)];
      unfold emit, update, resume; cbn [ui inflight effects];
      by rewrite <- app_assoc. }
  clearbody w'. subst w'. intros retry left. subst retry left.
  destruct w as [s pending done]. destruct s.
  cbn [ui inflight effects showOtpModal pendingOtpData] in *. subst.
  repeat split.
  - unfold calls. rewrite omap_app. cbn. by rewrite app_nil_r.
  - run_handlers. rewrite Hlen. run_handlers.
    unfold verify_disabled, handleVerifyOtp. run_handlers.
    rewrite Hcode, Htruthy. run_handlers.
    unfold calls. rewrite !omap_app. cbn. by rewrite !app_nil_r.
  - intros [data| | | |text| |text| | | |m reply].
    + left. unfold step, handleBarCodeScanned. cbn [ui scanned setIsProcessing].
      destruct scanned0; [reflexivity|]. cbn [isProcessing orb].
      by apply processScan_keeps_modal.
    + left. unfold step. by repeat case_match.
    + left. unfold step. by repeat case_match.
    + left. unfold step. by repeat case_match.
    + left. unfold step. by repeat case_match.
    + left. unfold step, handleManualEntry. cbn [ui].
      repeat case_match; try reflexivity.
      by apply processScan_keeps_modal.
    + left. unfold step. by repeat case_match.
    + left. unfold step, handleVerifyOtp. by repeat case_match.
    + right. by left.
    + left. unfold step. by repeat case_match.
    + unfold step. cbn [inflight ui].
      destruct (delete n pending !! m) as [[parsedData caller|seen']|];
        destruct reply as [r|r]; try (left; reflexivity).
      * left. by apply processScan_settled_keeps_modal.
      * unfold handleVerifyOtp_settled.
        destruct (ApiService.success r) eqn:Hs; [|left; reflexivity].
        destruct (ApiService.data r) as [d|] eqn:Hd; [|left; reflexivity].
        right. right. exists m, r, d. by repeat split.
Qed.


(** The camera path is single-flight: while a call is in flight, or once a
    code was taken, a delivered code is ignored. *)
Lemma handleBarCodeScanned_busy (data : string) (w : World) :
  scanned (ui w) || isProcessing (ui w) = true ->
  handleBarCodeScanned JSON_parse data w = w.
Proof. unfold handleBarCodeScanned. by intros ->. Qed.

(** The Verify button is dead while a call is in flight. *)
Lemma pressVerify_busy (w : World) :
  isProcessing (ui w) = true -> step JSON_parse pressVerify w = w.
Proof.
  intros Hbusy. unfold step, verify_disabled. rewrite Hbusy.
  by rewrite orb_true_r, andb_false_r.
Qed.

(** The manual path has no such test: with a well-formed text in the field,
    [handleManualEntry] issues its request whatever [isProcessing] is and
    whatever is in flight. *)
Lemma handleManualEntry_not_guarded (parsedData : JS.Value) (w : World) :
  JS.blank (manualQrCode (ui w)) = false ->
  well_formed JSON_parse (manualQrCode (ui w)) parsedData ->
  let w' := handleManualEntry JSON_parse w in
  inflight w' = inflight w ++ [AwaitScanGuest parsedData ManualEntry]
  /\ calls (effects w')
     = calls (effects w)
       ++ [ApiService.scanGuest (JS.prop parsedData "invitationId")
             (JS.prop parsedData "qrCode")].
Proof.
  intros Hblank Hwf w'. subst w'. unfold handleManualEntry.
  rewrite Hblank. rewrite (processScan_well_formed _ _ _ _ Hwf).
  cbn [inflight effects update]. split; [done|].
  unfold calls. rewrite omap_app. reflexivity.
Qed.

(** The scanner's Verify button and handler test the code for blankness
    only: every non-blank code goes out. *)
Lemma handleVerifyOtp_any_code (w : World) :
  JS.blank (otpCode (ui w)) = false ->
  JS.truthy (pendingOtpData (ui w)) = true ->
  calls (effects (handleVerifyOtp w))
  = calls (effects w)
    ++ [ApiService.verifyOtp (JS.prop (pendingOtpData (ui w)) "invitationId")
          (JS.prop (pendingOtpData (ui w)) "qrCode")
          (JS.Str (otpCode (ui w)))].
Proof.
  intros Hcode Htruthy. unfold handleVerifyOtp. rewrite Hcode, Htruthy.
  cbn [negb orb effects suspend emit update]. unfold calls.
  by rewrite omap_app.
Qed.

End WithParser.

(** *** The scenarios *)


Lemma otp_round_trip_witness :
  well_formed Sample.JSON_parse Sample.payload_text Sample.payload
  /\ (exists d, requires_otp Sample.pending_otp d)
  /\ JS.blank "482913" = false
  /\ (String.length "482913" <= 6)%nat
  /\ calls (effects
              (run Sample.JSON_parse
                 [onBarcodeScanned Sample.payload_text;
                  settled 0 (ScanGuestReply Sample.pending_otp);
                  changeOtpText "482913"; pressVerify] start))
     = [ApiService.scanGuest (JS.Str "inv1") (JS.Str "q1");
        ApiService.verifyOtp (JS.Str "inv1") (JS.Str "q1") (JS.Str "482913")].
Proof.
  assert (H1 : well_formed Sample.JSON_parse Sample.payload_text Sample.payload)
    by (split; vm_compute; reflexivity).
  assert (H2 : requires_otp Sample.pending_otp
                 (ApiService.ScanGuestResponse.mk "pending_otp" "OTP sent"
                    Sample.alice))
    by (repeat split).
  assert (H3 : JS.blank "482913" = false) by reflexivity.
  assert (H4 : (String.length "482913" <= 6)%nat) by (cbn; lia).
  destruct (otp_round_trip Sample.JSON_parse _ _ Camera _ _ "482913"
              (emit (Haptic Success) (update (setScanned true) start))
              H1 H2 H3 H4) as (Hscan & _ & _ & Hsame & Hverify).
  refine (conj H1 (conj (ex_intro _ _ H2) (conj H3 (conj H4 _)))).
  etransitivity; [exact Hverify|].
  rewrite Hsame. etransitivity; [exact (f_equal (fun l => l ++ _) Hscan)|].
  reflexivity.
Defined.

Lemma failed_verify_stays_pending_witness :
  let w' := step Sample.JSON_parse
              (settled 0 (VerifyOtpReply Sample.wrong_otp)) Sample.verifying in
  rejected Sample.wrong_otp
  /\ inflight Sample.verifying !! 0%nat
     = Some (AwaitVerifyOtp (scanResult (ui Sample.verifying)))
  /\ showOtpModal (ui Sample.verifying) = true
  /\ JS.truthy (pendingOtpData (ui Sample.verifying)) = true
  /\ JS.blank "482913" = false
  /\ (String.length "482913" <= 6)%nat
  /\ phase (ui w') = OtpPending
  /\ pendingOtpData (ui w') = Sample.payload
  /\ calls (effects
              (step Sample.JSON_parse pressVerify
                 (step Sample.JSON_parse (changeOtpText "482913") w')))
     = calls (effects Sample.verifying)
       ++ [ApiService.verifyOtp (JS.Str "inv1") (JS.Str "q1")
             (JS.Str "482913")].
Proof.
  intros w'.
  assert (H1 : rejected Sample.wrong_otp) by (left; reflexivity).
  assert (H2 : inflight Sample.verifying !! 0%nat
               = Some (AwaitVerifyOtp (scanResult (ui Sample.verifying))))
    by reflexivity.
  assert (H3 : showOtpModal (ui Sample.verifying) = true) by reflexivity.
  assert (H4 : JS.truthy (pendingOtpData (ui Sample.verifying)) = true)
    by reflexivity.
  assert (H5 : JS.blank "482913" = false) by reflexivity.
  assert (H6 : (String.length "482913" <= 6)%nat) by (cbn; lia).
  destruct (failed_verify_stays_pending Sample.JSON_parse _ _ 0 "482913"
              Sample.verifying H1 H2 H3 H4 H5 H6)
    as (_ & Hphase & Hkept & _ & _ & Hretry & _).
  exact (conj H1 (conj H2 (conj H3 (conj H4 (conj H5 (conj H6
           (conj Hphase (conj Hkept Hretry)))))))).
Defined.


(** The first scenario of the specification: the server grants the scan at
    once, the card shows Alice at level 1 and the OTP modal never opens. *)
Example granted_at_once :
  let w := run Sample.JSON_parse
             [onBarcodeScanned Sample.payload_text;
              settled 0 (ScanGuestReply Sample.granted)] start in
  phase (ui w) = Granted
  /\ (scanResult (ui w) ≫= guestName) = Some "Alice"
  /\ (scanResult (ui w) ≫= securityLevel) = Some 1%Z
  /\ showOtpModal (ui w) = false
  /\ calls (effects w) = [ApiService.scanGuest (JS.Str "inv1") (JS.Str "q1")].
Proof. vm_compute. repeat split. Qed.

(** C2, at the input where it fails.  The guard opens the manual entry
    modal, the camera behind it takes a code and its request is in flight,
    and the guard submits a typed payload: [handleManualEntry] issues a
    second [scanGuest] request while the first has not been answered. *)
Theorem manual_entry_issues_second_call :
  let before :=
    run Sample.JSON_parse
      [pressManualEntry; onBarcodeScanned Sample.payload_text;
       changeManualText Sample.other_text] start in
  let after := step Sample.JSON_parse pressSubmit before in
  isProcessing (ui before) = true
  /\ inflight before = [AwaitScanGuest Sample.payload Camera]
  /\ inflight after
     = [AwaitScanGuest Sample.payload Camera;
        AwaitScanGuest Sample.other ManualEntry]
  /\ calls (effects after)
     = [ApiService.scanGuest (JS.Str "inv1") (JS.Str "q1");
        ApiService.scanGuest (JS.Str "inv2") (JS.Str "q2")].
Proof. vm_compute. repeat split. Qed.

(** C7, at the input where it fails.  In the scanner's OTP modal the guard
    enters the two characters 12 and presses Verify: the verify request goes
    out with that code. *)
Theorem scanner_submits_short_code :
  let w :=
    run Sample.JSON_parse
      [onBarcodeScanned Sample.payload_text;
       settled 0 (ScanGuestReply Sample.pending_otp);
       changeOtpText "12"; pressVerify] start in
  String.length "12" = 2%nat
  /\ calls (effects w)
     = [ApiService.scanGuest (JS.Str "inv1") (JS.Str "q1");
        ApiService.verifyOtp (JS.Str "inv1") (JS.Str "q1") (JS.Str "12")].
Proof. vm_compute. repeat split. Qed.

End ScannerFacts.

(** ** The pending-action poller *)

Module MyQRFacts.

Import MyQR.

(** The class of services/apiService.ts has no member of that name. *)
Lemma no_checkPendingActions :
  bool_decide ("checkPendingActions" ∈ ApiService.members) = false.
Proof. vm_compute. reflexivity. Qed.

(** With the shipped class a poll throws before any request is made; the
    [catch] logs the error and the screen is as it was. *)
Lemma poll_shipped (response : ApiService.ApiResponse PendingActions)
    (w : World) :
  poll ApiService.members response w
  = emit (ConsoleError "Polling error:"
            "apiService.checkPendingActions is not a function") w.
Proof. unfold poll, checkPendingActions. by rewrite no_checkPendingActions. Qed.

Lemma step_quiet (e : Event) (w : World) :
  quiet (ui w) -> quiet (ui (step ApiService.members e w)).
Proof.
  intros (H3 & H4 & Hd3 & Hd4). destruct w as [s armed pending k done].
  destruct s. cbn in H3, H4, Hd3, Hd4. subst.
  destruct e as [response| | |text| | | | |n reply]; unfold step;
    cbn [ui pollingIntervalRef inflight granted_alerts].
  - rewrite poll_shipped. by destruct armed.
  - by repeat case_match.
  - repeat case_match; by cbn.
  - repeat case_match; by cbn.
  - unfold handleVerifyOtp. repeat case_match; by cbn.
  - repeat case_match; by cbn.
  - repeat case_match; by cbn.
  - unfold stopPolling. by repeat case_match.
  - unfold loadQRCode_settled, handleVerifyOtp_settled.
    repeat case_match; by cbn.
Qed.

Lemma run_quiet (events : list Event) (w : World) :
  quiet (ui w) -> quiet (ui (run ApiService.members events w)).
Proof.
  revert w. induction events as [|e events IH]; intros w Hquiet; [done|].
  cbn. apply IH. by apply step_quiet.
Qed.

(** C9. With the [ApiService] of services/apiService.ts, which has no
    [checkPendingActions], every poll ends in the [catch] with the error
    logged and the screen untouched, and whatever else happens on the
    screen, from the mount on no tier-three or tier-four item is ever
    surfaced. *)
Theorem shipped_poll_never_surfaces (events : list Event)
    (response : ApiService.ApiResponse PendingActions) (w : World) :
  let reached := run ApiService.members events mounted in
  bool_decide ("checkPendingActions" ∈ ApiService.members) = false
  /\ poll ApiService.members response w
     = emit (ConsoleError "Polling error:"
               "apiService.checkPendingActions is not a function") w
  /\ ui (step ApiService.members (tick response) w) = ui w
  /\ showL3Modal (ui reached) = false
  /\ showL4Modal (ui reached) = false
  /\ l3ScanData (ui reached) = None
  /\ l4OtpData (ui reached) = None.
Proof.
  intros reached. split; [apply no_checkPendingActions|].
  split; [apply poll_shipped|]. split.
  - unfold step. rewrite poll_shipped. by destruct (pollingIntervalRef w).
  - apply (run_quiet events mounted). by repeat split.
Qed.

Section WithPoll.

(** An [apiService] that does have the operation. *)
Variable members : list string.
Hypothesis has_poll : "checkPendingActions" ∈ members.

(** A poll that reports tier-three events surfaces the first of them, with
    or without a tier-three modal already on the screen: the guard of the
    interval's closure reads the [showL3Modal] of the first render. *)
Lemma poll_surfaces_first (response : ApiService.ApiResponse PendingActions)
    (d : PendingActions) (first : PendingL3Scan.t)
    (rest : list PendingL3Scan.t) (w : World) :
  ApiService.success response = true ->
  ApiService.data response = Some d ->
  hasL3Scans d = true ->
  pendingL3Scans d = first :: rest ->
  let w' := poll members response w in
  showL3Modal (ui w') = true /\ l3ScanData (ui w') = Some first.
Proof.
  intros Hsuccess Hdata Hflag Hlist w'. subst w'.
  unfold poll, checkPendingActions.
  rewrite (bool_decide_eq_true_2 _ has_poll), Hsuccess, Hdata, Hflag, Hlist.
  cbn. by repeat case_match.
Qed.

(** The same function run in the closure of the current render would have
    left a shown tier-three item alone. *)
Lemma fresh_closure_keeps_shown
    (response : ApiService.ApiResponse PendingActions) (w : World) :
  showL3Modal (ui w) = true ->
  let w' := checkPendingActions members (ui w) response w in
  showL3Modal (ui w') = true /\ l3ScanData (ui w') = l3ScanData (ui w).
Proof.
  intros Hshown w'. subst w'. unfold checkPendingActions.
  rewrite (bool_decide_eq_true_2 _ has_poll), Hshown.
  destruct (ApiService.success response); [|done].
  destruct (ApiService.data response) as [d|]; [|done].
  cbn [negb]. rewrite andb_false_r. by repeat case_match.
Qed.

End WithPoll.


(** The verify request of the tier-four modal: the object with the
    invitation and the code sits in the [invitationId] field of the body,
    and the body has no [qrCode] and no [otpCode] of its own. *)
Lemma tier_four_verify_request (pending : PendingL4Otp.t) (w : World) :
  JS.empty (otpInput (ui w)) = false ->
  l4OtpData (ui w) = Some pending ->
  effects (handleVerifyOtp w)
  = effects w
    ++ [Call (ApiService.verifyOtp
                (JS.Obj [("invitationId",
                          JS.Str (PendingL4Otp.invitationId pending));
                         ("otpCode", JS.Str (otpInput (ui w)))])
                JS.Undefined JS.Undefined)].
Proof. unfold handleVerifyOtp. by intros -> ->. Qed.

(** The tier-four Verify button takes six characters, whatever they are. *)
Lemma pressVerify_six (members : list string) (w : World) :
  effects (step members pressVerify w) <> effects w ->
  String.length (otpInput (ui w)) = 6%nat.
Proof.
  unfold step, verify_disabled. intros Hsent.
  destruct (String.length (otpInput (ui w)) =? 6)%nat eqn:Hlen.
  - by apply Nat.eqb_eq.
  - rewrite orb_true_r, andb_false_r in Hsent. done.
Qed.

End MyQRFacts.

(** ** Strings *)

Module JSFacts.

Import JS.

Lemma trimEnd_empty (s : string) : empty (trimEnd s) = blank s.
Proof.
  induction s as [|c rest IH]; [reflexivity|].
  cbn [trimEnd blank all_white_space]. unfold blank in IH. rewrite <- IH.
  by destruct (is_white_space c), (empty (trimEnd rest)).
Qed.

Lemma trimStart_blank (s : string) : blank (trimStart s) = blank s.
Proof.
  induction s as [|c rest IH]; [reflexivity|].
  cbn [trimStart]. destruct (is_white_space c) eqn:Hc; [|reflexivity].
  rewrite IH. unfold blank. cbn [all_white_space]. by rewrite Hc.
Qed.

(** The test [!s.trim()] that the screens use on the typed texts holds
    exactly for the texts made of white space only: [trim] returns the empty
    string on them and on no other text. *)
Lemma blank_trim (s : string) : blank s = empty (trim s).
Proof. unfold trim. by rewrite trimEnd_empty, trimStart_blank. Qed.

Lemma trimStart_first (s : string) : white (first_unit (trimStart s)) = false.
Proof.
  induction s as [|c rest IH]; [reflexivity|].
  cbn [trimStart]. destruct (is_white_space c) eqn:Hc; [exact IH|].
  exact Hc.
Qed.

Lemma trimEnd_first (s : string) :
  white (first_unit s) = false -> white (first_unit (trimEnd s)) = false.
Proof.
  destruct s as [|c rest]; [done|]. cbn [trimEnd first_unit white from_option].
  intros Hc. rewrite Hc. cbn. exact Hc.
Qed.

Lemma trimEnd_last (s : string) : white (last_unit (trimEnd s)) = false.
Proof.
  induction s as [|c rest IH]; [reflexivity|].
  cbn [trimEnd]. destruct (is_white_space c) eqn:Hc;
    destruct (trimEnd rest) as [|c' rest'] eqn:Hrest; cbn; try done.
Qed.

Lemma trimStart_fixed (s : string) :
  white (first_unit s) = false -> trimStart s = s.
Proof. destruct s as [|c rest]; [done|]. cbn. by intros ->. Qed.

Lemma trimEnd_cons (c : ascii) (rest : string) :
  trimEnd (String c rest)
  = if is_white_space c && empty (trimEnd rest) then EmptyString
    else String c (trimEnd rest).
Proof. reflexivity. Qed.

Lemma trimEnd_fixed (s : string) :
  white (last_unit s) = false -> trimEnd s = s.
Proof.
  induction s as [|c rest IH]; [done|].
  destruct rest as [|c' rest'].
  - cbn. by intros ->.
  - intros Hlast. rewrite trimEnd_cons, (IH Hlast). cbn [empty String.eqb].
    by rewrite andb_false_r.
Qed.

Lemma trimStart_length (s : string) :
  (String.length (trimStart s) <= String.length s)%nat.
Proof.
  induction s as [|c rest IH]; [done|]. cbn [trimStart].
  destruct (is_white_space c); cbn; lia.
Qed.

Lemma trimEnd_length (s : string) :
  (String.length (trimEnd s) <= String.length s)%nat.
Proof.
  induction s as [|c rest IH]; [done|]. cbn [trimEnd].
  destruct (is_white_space c && empty (trimEnd rest)); cbn; lia.
Qed.

(** What [trim] returns neither starts nor ends with white space, is no
    longer than the text, and is left as it is by a second [trim]. *)
Lemma trim_trimmed (s : string) :
  white (first_unit (trim s)) = false
  /\ white (last_unit (trim s)) = false
  /\ trim (trim s) = trim s
  /\ (String.length (trim s) <= String.length s)%nat.
Proof.
  assert (Hfirst : white (first_unit (trim s)) = false).
  { apply trimEnd_first, trimStart_first. }
  assert (Hlast : white (last_unit (trim s)) = false).
  { apply trimEnd_last. }
  repeat split; try assumption.
  - unfold trim at 1. by rewrite (trimStart_fixed _ Hfirst), (trimEnd_fixed _ Hlast).
  - unfold trim. pose proof (trimEnd_length (trimStart s)).
    pose proof (trimStart_length s). lia.
Qed.

End JSFacts.

(** ** The gateway, further *)

Module GatewayFacts.

Import SecureStore ApiService.

Lemma or_else_nonempty (a : option string) (b : string) :
  JS.empty b = false -> JS.empty (JS.or_else a b) = false.
Proof.
  intros Hb. destruct a as [s|]; [|exact Hb]. cbn.
  by destruct (JS.empty s) eqn:Hs.
Qed.

Lemma validateStatus_not_401 (status : Z) :
  validateStatus status = true -> (status =? 401)%Z = false.
Proof. unfold validateStatus. lia. Qed.

(** X1. An operation writes nothing to the secure store, and it deletes the
    token on a response with status 401 only: after a 2xx answer, after any
    other error status and after a request that got no response the store
    is the one before. *)
Theorem perform_store {T} (op : Operation) (t : Transport T) (store : Store) :
  (perform op t store).1
  = match t with
    | Responded status _ =>
        if (status =? 401)%Z then deleteItemAsync "auth_token" store
        else store
    | NoResponse _ => store
    end.
Proof.
  unfold perform, settle. destruct t as [status reply|reason]; [|reflexivity].
  destruct (validateStatus status) eqn:Hok.
  - by rewrite (validateStatus_not_401 _ Hok).
  - reflexivity.
Qed.

(** X2. When the request is rejected (an answer outside 2xx, or no answer),
    the caller gets [success = false], no data and an error text that is
    never empty: the [message] of the answer's body when it has a non-empty
    one, else the message of the axios error, else the fixed text. *)
Theorem rejected_error_text {T} (op : Operation) (t : Transport T)
    (e : AxiosError T) (store : Store) :
  settle t = inr e ->
  let result := (perform op t store).2 in
  let server_message :=
    match response e with
    | Some (_, reply) => message reply
    | None => None
    end in
  success result = false
  /\ data result = None
  /\ error result
     = Some (JS.or_else server_message
               (JS.or_else (Some (axios_message e)) "An error occurred"))
  /\ (exists text, error result = Some text /\ JS.empty text = false).
Proof.
  intros Hrejected result server_message. subst result.
  unfold perform. rewrite Hrejected. cbn [snd handleError success data error].
  repeat split. eexists. split; [reflexivity|].
  by apply or_else_nonempty, or_else_nonempty.
Qed.

Lemma rejected_error_text_witness :
  let t : Transport unit :=
    Responded 403 (mkResponse false None (Some "Guard is disabled") None) in
  (exists e, settle t = inr e)
  /\ error (perform getProfile t ∅).2 = Some "Guard is disabled".
Proof.
  intros t.
  assert (H : settle t
              = inr (mkAxiosError "Request failed with status code 403"
                       (Some (403%Z, mkResponse false None
                                       (Some "Guard is disabled") None))))
    by reflexivity.
  destruct (rejected_error_text getProfile t _ ∅ H) as (_ & _ & Herror & _).
  split; [by eexists|]. exact Herror.
Defined.

(** X3. With a non-empty token in the store every request leaves with the
    header [Bearer] and that token and is otherwise the request the
    operation built; once an answer with status 401 came back, the next
    request of any operation carries no [Authorization] header. *)
Theorem bearer_follows_store {T} (op next : Operation) (reply : ApiResponse T)
    (token : string) (store : Store) :
  getItemAsync "auth_token" store = Some token ->
  JS.empty token = false ->
  let request := sent op store in
  let store' := (perform op (Responded 401 reply) store).1 in
  Authorization request = Some ("Bearer " +:+ token)
  /\ method request = method (request_of op)
  /\ url request = url (request_of op)
  /\ body request = body (request_of op)
  /\ Authorization (sent next store') = None.
Proof.
  intros Hstored Hnonempty request store'. subst request store'.
  unfold sent, request_interceptor. rewrite Hstored, Hnonempty.
  cbn [Authorization method url body]. repeat split.
  rewrite perform_store. cbn. unfold getItemAsync, deleteItemAsync.
  rewrite lookup_delete_eq. by destruct next.
Qed.

Lemma bearer_follows_store_witness :
  let store : Store := <["auth_token" := "t0k3n"]> ∅ in
  getItemAsync "auth_token" store = Some "t0k3n"
  /\ JS.empty "t0k3n" = false
  /\ Authorization (sent getDashboard store) = Some "Bearer t0k3n"
  /\ Authorization
       (sent getProfile
          (perform (T := unit) getDashboard
             (Responded 401 (mkResponse false None None None)) store).1)
     = None.
Proof.
  intros store.
  assert (H1 : getItemAsync "auth_token" store = Some "t0k3n") by reflexivity.
  assert (H2 : JS.empty "t0k3n" = false) by reflexivity.
  destruct (bearer_follows_store (T := unit) getDashboard getProfile
              (mkResponse false None None None) "t0k3n" store H1 H2)
    as (Hbearer & _ & _ & _ & Hnone).
  exact (conj H1 (conj H2 (conj Hbearer Hnone))).
Defined.

End GatewayFacts.

(** ** The session: login form, provider, splash *)

Module SessionFacts.

Import SecureStore.

(** X4. [validateForm] accepts exactly when it sets no message, and that is
    exactly when the user name is not blank and the password is neither
    blank nor shorter than six characters; the two texts are left as typed. *)
Theorem validateForm_verdict (s : Login.State) :
  let checked := (Login.validateForm s).1 in
  let isValid := (Login.validateForm s).2 in
  isValid
  = JS.empty (Login.Errors.username (Login.errors checked))
    && JS.empty (Login.Errors.password (Login.errors checked))
  /\ isValid
     = negb (JS.blank (Login.username s))
       && negb (JS.blank (Login.password s))
       && (6 <=? String.length (Login.password s))%nat
  /\ Login.username checked = Login.username s
  /\ Login.password checked = Login.password s.
Proof.
  unfold Login.validateForm.
  cbn [fst snd Login.errors Login.setErrors Login.username Login.password
       Login.Errors.username Login.Errors.password].
  destruct (Nat.ltb_spec (String.length (Login.password s)) 6) as [Hshort|Hlong];
    destruct (Nat.leb_spec 6 (String.length (Login.password s))); try lia.
  all: by destruct (JS.blank (Login.username s)),
            (JS.blank (Login.password s)).
Qed.

Section WithPlatform.

Variable JSON_parse : string -> option JS.Value.
Variable JSON_stringify : JS.Value -> string.
Variable device : AuthContext.DeviceInfo.

(** X5. A form that does not validate goes nowhere: [handleLogin] sends no
    request, shows no alert, does not navigate, and leaves the store and
    the session as they were; only the messages of the form change. *)
Theorem invalid_form_stays
    (t : ApiService.Transport ApiService.LoginResponse)
    (store : Store) (auth : AuthContext.State) (s : Login.State) :
  (Login.validateForm s).2 = false ->
  Login.handleLogin JSON_stringify device t store auth s
  = (store, auth, (Login.validateForm s).1, []).
Proof.
  intros Hinvalid. unfold Login.handleLogin.
  destruct (Login.validateForm s) as [checked isValid].
  cbn in Hinvalid. by subst.
Qed.

(** What [login] gives on an answer that carries data. *)
Lemma login_answered (username password : string)
    (t : ApiService.Transport ApiService.LoginResponse)
    (d : ApiService.LoginResponse) (store : Store) (auth : AuthContext.State) :
  ApiService.answered t = Some d ->
  AuthContext.login JSON_stringify device username password t store auth
  = (setItemAsync "guard_data" (JSON_stringify (ApiService.guard d))
       (setItemAsync "auth_token" (ApiService.token d) store),
     AuthContext.mkState (Some (ApiService.guard d))
       (Some (ApiService.token d)) false,
     AuthContext.mkLoginResult true None).
Proof.
  unfold ApiService.answered, AuthContext.login, ApiService.perform.
  destruct (ApiService.settle t) as [reply|e]; [|done].
  unfold ApiService.handleResponse.
  destruct (ApiService.success reply); [|done]. by intros ->.
Qed.

(** What [login] gives otherwise. *)
Lemma login_unanswered (username password : string)
    (t : ApiService.Transport ApiService.LoginResponse)
    (store : Store) (auth : AuthContext.State) :
  ApiService.answered t = None ->
  exists text,
    JS.empty text = false
    /\ AuthContext.login JSON_stringify device username password t store auth
       = ((ApiService.perform
             (ApiService.login
                (AuthContext.credentials device username password)) t store).1,
          AuthContext.mkState (AuthContext.guard auth)
            (AuthContext.token auth) false,
          AuthContext.mkLoginResult false (Some text)).
Proof.
  unfold ApiService.answered, AuthContext.login, ApiService.perform.
  destruct (ApiService.settle t) as [reply|e].
  - unfold ApiService.handleResponse. cbn [fst].
    destruct (ApiService.success reply).
    + intros ->. eexists. split; [|reflexivity].
      by apply GatewayFacts.or_else_nonempty.
    + intros _. eexists. split; [|reflexivity].
      by apply GatewayFacts.or_else_nonempty.
  - intros _. cbn -[JS.or_else]. eexists. split; [|reflexivity].
    by apply GatewayFacts.or_else_nonempty.
Qed.

(** X6. A valid form whose login the server answers with data: the request
    carried the user name without the white space around it and the
    password as typed, the token and the serialized profile are in the
    store, the session holds both, and the screen navigates to the tabs. *)
Theorem login_accepted
    (t : ApiService.Transport ApiService.LoginResponse)
    (d : ApiService.LoginResponse)
    (store : Store) (auth : AuthContext.State) (s : Login.State) :
  (Login.validateForm s).2 = true ->
  ApiService.answered t = Some d ->
  let credentials :=
    AuthContext.credentials device (JS.trim (Login.username s))
      (Login.password s) in
  let '(store', auth', s', shown) :=
    Login.handleLogin JSON_stringify device t store auth s in
  shown = [Login.Request
             (ApiService.sent (ApiService.login credentials) store);
           Login.Replace "/(tabs)"]
  /\ JS.prop credentials "username" = JS.Str (JS.trim (Login.username s))
  /\ JS.empty (JS.trim (Login.username s)) = false
  /\ JS.white (JS.first_unit (JS.trim (Login.username s))) = false
  /\ JS.white (JS.last_unit (JS.trim (Login.username s))) = false
  /\ JS.prop credentials "password" = JS.Str (Login.password s)
  /\ getItemAsync "auth_token" store' = Some (ApiService.token d)
  /\ getItemAsync "guard_data" store'
     = Some (JSON_stringify (ApiService.guard d))
  /\ AuthContext.token auth' = Some (ApiService.token d)
  /\ AuthContext.guard auth' = Some (ApiService.guard d)
  /\ Login.isSubmitting s' = false.
Proof.
  intros Hvalid Hanswered credentials. unfold Login.handleLogin.
  destruct (Login.validateForm s) as [checked isValid] eqn:Hform.
  cbn in Hvalid. subst isValid. cbn [negb].
  pose proof (validateForm_verdict s) as Hverdict. rewrite Hform in Hverdict.
  cbn [fst snd] in Hverdict. destruct Hverdict as (_ & Hwhy & -> & ->).
  assert (Hname : JS.empty (JS.trim (Login.username s)) = false).
  { rewrite <- JSFacts.blank_trim.
    by destruct (JS.blank (Login.username s)). }
  destruct (JSFacts.trim_trimmed (Login.username s)) as (Hfirst & Hlast & _).
  rewrite (login_answered _ _ _ _ _ _ Hanswered).
  cbn -[JS.trim JS.white JS.first_unit JS.last_unit JS.empty].
  unfold getItemAsync, setItemAsync.
  rewrite lookup_insert_eq, lookup_insert_ne, lookup_insert_eq by done.
  done.
Qed.

(** X7. A valid form whose login is rejected or answered without data: the
    session keeps the token and the guard it had, nothing is written to the
    store (it is the store before, less the token when the status was 401),
    the guard sees the Login Failed alert with a text that is not empty,
    and the screen does not navigate. *)
Theorem login_refused
    (t : ApiService.Transport ApiService.LoginResponse)
    (store : Store) (auth : AuthContext.State) (s : Login.State) :
  (Login.validateForm s).2 = true ->
  ApiService.answered t = None ->
  let '(store', auth', s', shown) :=
    Login.handleLogin JSON_stringify device t store auth s in
  AuthContext.token auth' = AuthContext.token auth
  /\ AuthContext.guard auth' = AuthContext.guard auth
  /\ (store' = store \/ store' = deleteItemAsync "auth_token" store)
  /\ getItemAsync "guard_data" store' = getItemAsync "guard_data" store
  /\ (exists request text,
        shown = [Login.Request request; Login.Alert "Login Failed" text]
        /\ JS.empty text = false).
Proof.
  intros Hvalid Hunanswered. unfold Login.handleLogin.
  destruct (Login.validateForm s) as [checked isValid] eqn:Hform.
  cbn in Hvalid. subst isValid. cbn [negb].
  destruct (login_unanswered (JS.trim (Login.username checked))
              (Login.password checked) t store auth Hunanswered)
    as (text & Htext & ->).
  cbn [AuthContext.success AuthContext.error AuthContext.token
       AuthContext.guard JS.or_else].
  rewrite Htext, GatewayFacts.perform_store.
  repeat split.
  - destruct t as [status reply|reason]; [|by left].
    destruct (status =? 401)%Z; [by right|by left].
  - destruct t as [status reply|reason]; [|done].
    destruct (status =? 401)%Z; [|done].
    unfold getItemAsync, deleteItemAsync. by rewrite lookup_delete_ne.
  - by eauto.
Qed.

(** X8. Login survives a restart: with a [JSON.parse] that reads back what
    [JSON.stringify] wrote, the provider of a fresh start, run on the store
    an accepted login left, restores the same token and the same guard, and
    the splash screen sends the guard to the tabs. *)
Theorem login_survives_restart
    (t : ApiService.Transport ApiService.LoginResponse)
    (d : ApiService.LoginResponse) (username password : string)
    (store : Store) (auth : AuthContext.State) :
  ApiService.answered t = Some d ->
  JS.empty (ApiService.token d) = false ->
  JS.truthy (ApiService.guard d) = true ->
  JS.empty (JSON_stringify (ApiService.guard d)) = false ->
  JSON_parse (JSON_stringify (ApiService.guard d))
  = Some (ApiService.guard d) ->
  let store' :=
    (AuthContext.login JSON_stringify device username password t store
       auth).1.1 in
  let restored := (AuthContext.checkAuth JSON_parse store'
                     AuthContext.initial).1 in
  AuthContext.token restored = Some (ApiService.token d)
  /\ AuthContext.guard restored = Some (ApiService.guard d)
  /\ AuthContext.isAuthenticated restored = true
  /\ Splash.redirect restored = Some "/(tabs)".
Proof.
  intros Hanswered Htoken Hguard Htext Hround store' restored.
  subst restored store'. rewrite (login_answered _ _ _ _ _ _ Hanswered).
  cbn [fst]. unfold AuthContext.checkAuth, getItemAsync, setItemAsync.
  rewrite lookup_insert_ne, !lookup_insert_eq by done.
  rewrite Htoken, Htext, Hround. cbn [negb andb fst].
  unfold Splash.redirect, AuthContext.isAuthenticated. cbn.
  by rewrite Hguard, Htoken.
Qed.

(** X9. [checkAuth] never signs the guard out: on a store that lacks the
    token or the profile it changes nothing but [isLoading], so a session
    that was authenticated stays so, and a fresh start ends on the login
    screen. *)
Theorem checkAuth_without_items (store : Store) (st : AuthContext.State) :
  getItemAsync "auth_token" store = None
  \/ getItemAsync "guard_data" store = None ->
  let checked := (AuthContext.checkAuth JSON_parse store st).1 in
  let fresh := (AuthContext.checkAuth JSON_parse store AuthContext.initial).1 in
  AuthContext.token checked = AuthContext.token st
  /\ AuthContext.guard checked = AuthContext.guard st
  /\ AuthContext.isAuthenticated checked = AuthContext.isAuthenticated st
  /\ AuthContext.isLoading checked = false
  /\ Splash.redirect fresh = Some "/login".
Proof.
  intros Hmissing checked fresh. subst checked fresh.
  unfold AuthContext.checkAuth.
  destruct Hmissing as [-> | ->]; [done|].
  by destruct (getItemAsync "auth_token" store).
Qed.

(** X10. A stored profile that [JSON.parse] rejects does not authenticate:
    the fresh provider sets the token, logs the error, leaves the guard
    unset, and the splash screen sends the guard to the login screen. *)
Theorem corrupted_profile_not_authenticated (store : Store)
    (t g : string) :
  getItemAsync "auth_token" store = Some t ->
  getItemAsync "guard_data" store = Some g ->
  JS.empty t = false ->
  JS.empty g = false ->
  JSON_parse g = None ->
  let outcome := AuthContext.checkAuth JSON_parse store AuthContext.initial in
  AuthContext.token outcome.1 = Some t
  /\ AuthContext.guard outcome.1 = None
  /\ outcome.2 = [AuthContext.CheckAuthError]
  /\ AuthContext.isAuthenticated outcome.1 = false
  /\ Splash.redirect outcome.1 = Some "/login".
Proof.
  intros Ht Hg Htoken Htext Hparse outcome. subst outcome.
  unfold AuthContext.checkAuth. rewrite Ht, Hg, Htoken, Htext, Hparse.
  by cbn.
Qed.

(** X11. After the explicit logout, and after an answer with status 401 to
    any operation, a fresh start ends on the login screen whatever the
    store held, although after the 401 the cached profile is still stored. *)
Theorem signed_out_after_restart {T} (op : ApiService.Operation)
    (reply : ApiService.ApiResponse T) (store : Store)
    (auth : AuthContext.State) :
  let after_logout := (AuthContext.logout store auth).1 in
  let after_401 := (ApiService.perform op (ApiService.Responded 401 reply)
                      store).1 in
  Splash.redirect
    (AuthContext.checkAuth JSON_parse after_logout AuthContext.initial).1
  = Some "/login"
  /\ Splash.redirect
       (AuthContext.checkAuth JSON_parse after_401 AuthContext.initial).1
     = Some "/login"
  /\ AuthContext.isAuthenticated (AuthContext.logout store auth).2 = false
  /\ AuthContext.logout after_logout (AuthContext.logout store auth).2
     = AuthContext.logout store auth.
Proof.
  intros after_logout after_401.
  assert (Hlogout : getItemAsync "auth_token" after_logout = None).
  { subst after_logout.
    unfold AuthContext.logout, ApiService.logout, getItemAsync,
      deleteItemAsync. cbn.
    rewrite lookup_delete_ne by done. apply lookup_delete_eq. }
  assert (H401 : getItemAsync "auth_token" after_401 = None).
  { subst after_401. rewrite GatewayFacts.perform_store. cbn.
    unfold getItemAsync, deleteItemAsync. apply lookup_delete_eq. }
  split; [|split].
  - by destruct (checkAuth_without_items after_logout AuthContext.initial
                   (or_introl Hlogout)) as (_ & _ & _ & _ & ?).
  - by destruct (checkAuth_without_items after_401 AuthContext.initial
                   (or_introl H401)) as (_ & _ & _ & _ & ?).
  - split; [reflexivity|]. subst after_logout.
    unfold AuthContext.logout, ApiService.logout, deleteItemAsync. cbn.
    f_equal. apply map_eq. intros key. rewrite !lookup_delete.
    by repeat case_decide.
Qed.

End WithPlatform.

Lemma invalid_form_stays_witness :
  (Login.validateForm Login.initial).2 = false
  /\ Login.handleLogin Sample.JSON_stringify Sample.device
       (ApiService.Responded 200 Sample.logged_in) ∅ AuthContext.initial
       Login.initial
     = (∅, AuthContext.initial, (Login.validateForm Login.initial).1, []).
Proof.
  assert (H : (Login.validateForm Login.initial).2 = false) by reflexivity.
  exact (conj H (invalid_form_stays Sample.JSON_stringify Sample.device
                   (ApiService.Responded 200 Sample.logged_in) ∅
                   AuthContext.initial Login.initial H)).
Defined.

Lemma login_accepted_witness :
  let t := ApiService.Responded 200 Sample.logged_in in
  let outcome :=
    Login.handleLogin Sample.JSON_stringify Sample.device t ∅
      AuthContext.initial Sample.filled_in in
  (Login.validateForm Sample.filled_in).2 = true
  /\ ApiService.answered t
     = Some (ApiService.mkLoginResponse "t0k3n" Sample.guard_profile)
  /\ getItemAsync "auth_token" outcome.1.1.1 = Some "t0k3n"
  /\ getItemAsync "guard_data" outcome.1.1.1 = Some Sample.guard_text
  /\ AuthContext.token outcome.1.1.2 = Some "t0k3n".
Proof.
  intros t outcome.
  assert (H1 : (Login.validateForm Sample.filled_in).2 = true)
    by reflexivity.
  assert (H2 : ApiService.answered t
               = Some (ApiService.mkLoginResponse "t0k3n"
                         Sample.guard_profile)) by reflexivity.
  pose proof (login_accepted Sample.JSON_stringify Sample.device t _ ∅
                AuthContext.initial Sample.filled_in H1 H2) as H.
  cbv zeta in H. fold outcome in H.
  destruct outcome as [[[store' auth'] s'] shown].
  destruct H as (_ & _ & _ & _ & _ & _ & Htoken & Hprofile & Hsession & _).
  exact (conj H1 (conj H2 (conj Htoken (conj Hprofile Hsession)))).
Defined.

Lemma login_refused_witness :
  let t := ApiService.Responded 401 Sample.bad_credentials in
  let store : Store := <["guard_data" := Sample.guard_text]> ∅ in
  let outcome :=
    Login.handleLogin Sample.JSON_stringify Sample.device t store
      AuthContext.initial Sample.filled_in in
  (Login.validateForm Sample.filled_in).2 = true
  /\ ApiService.answered t = None
  /\ AuthContext.token outcome.1.1.2 = None
  /\ getItemAsync "guard_data" outcome.1.1.1 = Some Sample.guard_text.
Proof.
  intros t store outcome.
  assert (H1 : (Login.validateForm Sample.filled_in).2 = true)
    by reflexivity.
  assert (H2 : ApiService.answered t = None) by reflexivity.
  pose proof (login_refused Sample.JSON_stringify Sample.device t store
                AuthContext.initial Sample.filled_in H1 H2) as H.
  fold outcome in H.
  destruct outcome as [[[store' auth'] s'] shown].
  destruct H as (Htoken & _ & _ & Hprofile & _).
  exact (conj H1 (conj H2 (conj Htoken Hprofile))).
Defined.

Lemma login_survives_restart_witness :
  let t := ApiService.Responded 200 Sample.logged_in in
  let d := ApiService.mkLoginResponse "t0k3n" Sample.guard_profile in
  let store' :=
    (AuthContext.login Sample.JSON_stringify Sample.device "guard1"
       "secret1" t ∅ AuthContext.initial).1.1 in
  ApiService.answered t = Some d
  /\ JS.empty (ApiService.token d) = false
  /\ JS.truthy (ApiService.guard d) = true
  /\ JS.empty (Sample.JSON_stringify (ApiService.guard d)) = false
  /\ Sample.parse_profile (Sample.JSON_stringify (ApiService.guard d))
     = Some (ApiService.guard d)
  /\ Splash.redirect
       (AuthContext.checkAuth Sample.parse_profile store'
          AuthContext.initial).1
     = Some "/(tabs)".
Proof.
  intros t d store'.
  assert (H1 : ApiService.answered t = Some d) by reflexivity.
  assert (H2 : JS.empty (ApiService.token d) = false) by reflexivity.
  assert (H3 : JS.truthy (ApiService.guard d) = true) by reflexivity.
  assert (H4 : JS.empty (Sample.JSON_stringify (ApiService.guard d)) = false)
    by reflexivity.
  assert (H5 : Sample.parse_profile (Sample.JSON_stringify (ApiService.guard d))
               = Some (ApiService.guard d)) by reflexivity.
  destruct (login_survives_restart Sample.parse_profile Sample.JSON_stringify
              Sample.device t d "guard1" "secret1" ∅ AuthContext.initial
              H1 H2 H3 H4 H5) as (_ & _ & _ & Hroute).
  exact (conj H1 (conj H2 (conj H3 (conj H4 (conj H5 Hroute))))).
Defined.

Lemma checkAuth_without_items_witness :
  let store : Store := <["guard_data" := Sample.guard_text]> ∅ in
  let session :=
    AuthContext.mkState (Some Sample.guard_profile) (Some "t0k3n") false in
  (getItemAsync "auth_token" store = None
   \/ getItemAsync "guard_data" store = None)
  /\ AuthContext.isAuthenticated
       (AuthContext.checkAuth Sample.parse_profile store session).1
     = true.
Proof.
  intros store session.
  assert (H : getItemAsync "auth_token" store = None
              \/ getItemAsync "guard_data" store = None)
    by (left; reflexivity).
  destruct (checkAuth_without_items Sample.parse_profile store session H)
    as (_ & _ & Hsame & _).
  exact (conj H Hsame).
Defined.

Lemma corrupted_profile_not_authenticated_witness :
  let store : Store :=
    <["auth_token" := "t0k3n"]> (<["guard_data" := "{id:"]> ∅) in
  getItemAsync "auth_token" store = Some "t0k3n"
  /\ getItemAsync "guard_data" store = Some "{id:"
  /\ JS.empty "t0k3n" = false
  /\ JS.empty "{id:" = false
  /\ Sample.parse_profile "{id:" = None
  /\ Splash.redirect
       (AuthContext.checkAuth Sample.parse_profile store
          AuthContext.initial).1
     = Some "/login".
Proof.
  intros store.
  assert (H1 : getItemAsync "auth_token" store = Some "t0k3n")
    by reflexivity.
  assert (H2 : getItemAsync "guard_data" store = Some "{id:") by reflexivity.
  assert (H3 : JS.empty "t0k3n" = false) by reflexivity.
  assert (H4 : JS.empty "{id:" = false) by reflexivity.
  assert (H5 : Sample.parse_profile "{id:" = None) by reflexivity.
  destruct (corrupted_profile_not_authenticated Sample.parse_profile store
              "t0k3n" "{id:" H1 H2 H3 H4 H5) as (_ & _ & _ & _ & Hroute).
  exact (conj H1 (conj H2 (conj H3 (conj H4 (conj H5 Hroute))))).
Defined.

End SessionFacts.

(** ** The scanner over whole sessions *)

Module ScannerSessionFacts.

Import Scanner ScannerSafety.


Lemma forallb_calls_app (l : list Effect) (e : Effect) :
  forallb request_ok (calls (l ++ [e]))
  = forallb request_ok (calls l)
    && match e with Call op => request_ok op | _ => true end.
Proof.
  unfold calls. rewrite omap_app, forallb_app. f_equal.
  destruct e; cbn; by rewrite ?andb_true_r.
Qed.

Section WithParser.

Variable JSON_parse : string -> option JS.Value.

Lemma parse_payload_complete (qrData : string) (parsedData : JS.Value) :
  parse_payload JSON_parse qrData = inr parsedData ->
  complete parsedData = true.
Proof.
  unfold parse_payload, complete, JS.prop.
  destruct (JSON_parse qrData) as [v|]; [|done].
  destruct (JS.get v "invitationId") as [invitationId|] eqn:Hget; [|done].
  destruct (JS.truthy invitationId) eqn:Hi; [|done].
  destruct (JS.truthy (default JS.Undefined (JS.get v "qrCode"))) eqn:Hq;
    [|done].
  cbn. intros [= <-]. rewrite Hget. cbn. by rewrite Hi, Hq.
Qed.

Ltac settle_safe :=
  unfold safe, retained_ok, calls in *; cbn in *;
  rewrite ?omap_app, ?forallb_app; cbn;
  repeat match goal with
         | H : forallb _ _ = true |- _ => rewrite H
         | H : (_ <=? _)%nat = true |- _ => rewrite H
         end;
  cbn; repeat split; try done.

Lemma safe_processScan (qrData : string) (caller : Caller) (w : World) :
  safe w -> safe (processScan JSON_parse qrData caller w).
Proof.
  intros (Hflight & Hkept & Hmodal & Hcode & Hcalls). unfold processScan.
  destruct (parse_payload JSON_parse qrData) as [text|parsedData] eqn:Hparse.
  - destruct w as [s pending done], s, caller; settle_safe.
  - pose proof (parse_payload_complete _ _ Hparse) as Hcomplete.
    destruct w as [s pending done], s. settle_safe.
    + apply Forall_app. split; [done|]. by repeat constructor.
    + unfold complete in Hcomplete. cbn in Hcomplete. by rewrite Hcomplete.
Qed.

Lemma safe_processScan_settled (parsedData : JS.Value) (caller : Caller)
    (response : ApiService.ApiResponse ScanGuestResponse.t) (w : World) :
  complete parsedData = true ->
  safe w -> safe (processScan_settled parsedData caller response w).
Proof.
  intros Hcomplete (Hflight & Hkept & Hmodal & Hcode & Hcalls).
  destruct parsedData as [| | | | | |fields]; try done.
  unfold processScan_settled.
  destruct w as [s pending done], s.
  destruct (ApiService.success response);
    destruct (ApiService.data response) as [d|];
    try destruct (String.eqb (ScanGuestResponse.status d) "pending_otp");
    try destruct (String.eqb (ScanGuestResponse.status d) "success");
    destruct caller; settle_safe.
Qed.

Lemma safe_handleVerifyOtp (w : World) :
  safe w -> safe (handleVerifyOtp w).
Proof.
  intros Hsafe. unfold handleVerifyOtp.
  destruct (JS.blank (otpCode (ui w))) eqn:Hblank; [done|].
  destruct (JS.truthy (pendingOtpData (ui w))) eqn:Htruthy; [|done].
  cbn [negb orb]. destruct Hsafe as (Hflight & Hkept & Hmodal & Hcode & Hcalls).
  assert (Hcomplete : complete (pendingOtpData (ui w)) = true).
  { unfold retained_ok in Hkept.
    by destruct (pendingOtpData (ui w)). }
  destruct w as [s pending done], s. cbn [ui otpCode pendingOtpData] in *.
  unfold complete in Hcomplete.
  unfold safe, suspend, emit, update, calls.
  cbn [ui inflight effects otpCode pendingOtpData setIsProcessing
       showOtpModal].
  rewrite omap_app, forallb_app.
  unfold calls in Hcalls. cbn [effects] in Hcalls. rewrite Hcalls.
  cbn -[JS.blank String.length Nat.leb JS.truthy JS.prop].
  rewrite Hcomplete, Hblank, Hcode.
  split; [apply Forall_app; split; [done|by repeat constructor]|].
  by repeat split.
Qed.

Lemma safe_handleVerifyOtp_settled (seen : option ScanResult)
    (response : ApiService.ApiResponse VerifyOTPResponse.t) (w : World) :
  safe w -> safe (handleVerifyOtp_settled seen response w).
Proof.
  intros (Hflight & Hkept & Hmodal & Hcode & Hcalls).
  unfold handleVerifyOtp_settled.
  destruct w as [s pending done], s.
  destruct (ApiService.success response);
    destruct (ApiService.data response) as [d|]; settle_safe.
Qed.

Lemma safe_resume (n : nat) (w : World) : safe w -> safe (resume n w).
Proof.
  intros (Hflight & Hrest). split; [|exact Hrest].
  cbn. by apply Forall_delete.
Qed.

Lemma safe_step (e : Event) (w : World) :
  safe w -> safe (step JSON_parse e w).
Proof.
  intros Hsafe. destruct e as [data| | | |text| |text| | | |n reply];
    unfold step.
  - destruct (scanned (ui w)); [done|]. unfold handleBarCodeScanned.
    destruct (scanned (ui w) || isProcessing (ui w)); [done|].
    apply safe_processScan.
    destruct Hsafe as (? & ? & ? & ? & Hcalls).
    destruct w as [s pending done], s. settle_safe.
  - destruct Hsafe as (? & ? & ? & ? & Hcalls).
    destruct w as [s pending done], s. repeat case_match; settle_safe.
  - destruct Hsafe as (? & ? & ? & ? & Hcalls).
    destruct w as [s pending done], s. repeat case_match; settle_safe.
  - destruct Hsafe as (? & ? & ? & ? & Hcalls).
    destruct w as [s pending done], s. repeat case_match; settle_safe.
  - destruct Hsafe as (? & ? & ? & ? & Hcalls).
    destruct w as [s pending done], s. repeat case_match; settle_safe.
  - destruct (showManualEntry (ui w) && negb (JS.blank (manualQrCode (ui w))));
      [|done].
    unfold handleManualEntry.
    destruct Hsafe as (? & ? & ? & ? & Hcalls).
    destruct (JS.blank (manualQrCode (ui w))).
    + destruct w as [s pending done], s. settle_safe.
    + apply safe_processScan.
      destruct w as [s pending done], s. settle_safe.
  - destruct (showOtpModal (ui w) && (String.length text <=? 6)%nat)
      eqn:Hguard; [|done].
    apply andb_true_iff in Hguard as [_ Hlen].
    destruct Hsafe as (? & ? & ? & ? & ?).
    destruct w as [s pending done], s. settle_safe.
  - destruct (showOtpModal (ui w) && negb (verify_disabled (ui w))); [|done].
    by apply safe_handleVerifyOtp.
  - destruct (showOtpModal (ui w) && negb (isProcessing (ui w))); [|done].
    destruct Hsafe as (? & ? & ? & ? & ?).
    destruct w as [s pending done], s. settle_safe.
  - destruct (scanned (ui w) && negb (modal_visible (ui w))) eqn:Hguard;
      [|done].
    destruct Hsafe as (? & ? & ? & ? & ?).
    destruct w as [s pending done], s. unfold modal_visible in Hguard.
    cbn in Hguard.
    destruct scanned0, showManualEntry0, showOtpModal0; try done; settle_safe.
  - destruct (inflight w !! n) as [[parsedData caller|seen]|] eqn:Hlookup;
      destruct reply as [response|response]; try done.
    + apply safe_processScan_settled; [|by apply safe_resume].
      destruct Hsafe as (Hflight & _).
      by apply (Forall_lookup_1 _ _ _ _ Hflight Hlookup).
    + by apply safe_handleVerifyOtp_settled, safe_resume.
Qed.

Lemma safe_run (events : list Event) (w : World) :
  safe w -> safe (run JSON_parse events w).
Proof.
  revert w. induction events as [|e events IH]; intros w Hsafe; [done|].
  cbn. apply IH. by apply safe_step.
Qed.

Lemma safe_start : safe start.
Proof. by repeat split. Qed.

(** X12. Through every session of the scanner, whatever the events and the
    answers, the OTP modal is up only while a complete payload is retained,
    and the code in its field never exceeds six characters. *)
Theorem otp_modal_has_payload (events : list Event) :
  let w := run JSON_parse events start in
  implb (showOtpModal (ui w)) (complete (pendingOtpData (ui w))) = true
  /\ (String.length (otpCode (ui w)) <=? 6)%nat = true.
Proof.
  intros w. destruct (safe_run events start safe_start)
    as (_ & _ & Hmodal & Hcode & _). by split.
Qed.

(** X13. Every request the scanner sends in any session is a scan or a
    verification with a usable [invitationId] and [qrCode], and every
    verification carries a code that is not blank and has at most six
    characters; a payload that misses a field never reaches the server. *)
Theorem requests_are_complete (events : list Event) :
  forallb request_ok (calls (effects (run JSON_parse events start))) = true.
Proof. by destruct (safe_run events start safe_start) as (_ & _ & _ & _ & ?). Qed.








(** X16. Scan Another does not cancel a scan that is still unanswered: the
    call stays in flight, and when its answer asks for the OTP, the OTP
    modal comes up with the payload of that scan although the screen is
    back on the camera. *)
Theorem reset_keeps_call_in_flight (parsedData : JS.Value) (caller : Caller)
    (n : nat) (response : ApiService.ApiResponse ScanGuestResponse.t)
    (d : ScanGuestResponse.t) (w : World) :
  inflight w !! n = Some (AwaitScanGuest parsedData caller) ->
  scanned (ui w) = true ->
  modal_visible (ui w) = false ->
  requires_otp response d ->
  let reset := step JSON_parse pressScanAnother w in
  let w' := step JSON_parse (settled n (ScanGuestReply response)) reset in
  inflight reset = inflight w
  /\ scanned (ui reset) = false
  /\ scanned (ui w') = false
  /\ showOtpModal (ui w') = true
  /\ pendingOtpData (ui w') = parsedData.
Proof.
  intros Hlookup Hscanned Hmodal (Hsuccess & Hdata & Hstatus) reset w'.
  assert (Hreset : reset = resetScanner w).
  { subst reset. unfold step. by rewrite Hscanned, Hmodal. }
  subst w'. rewrite Hreset. clear Hreset reset.
  unfold step. change (inflight (resetScanner w)) with (inflight w).
  rewrite Hlookup.
  unfold processScan_settled. rewrite Hsuccess, Hdata, Hstatus.
  by destruct caller.
Qed.

Lemma refused_step (e : Event) (w : World) :
  refusing e = true ->
  not_granted (ui w) = true /\ showOtpModal (ui w) = false ->
  not_granted (ui (step JSON_parse e w)) = true
  /\ showOtpModal (ui (step JSON_parse e w)) = false.
Proof.
  intros Hrefusing [Hnone Hmodal].
  destruct w as [s pending done], s. cbn in Hnone, Hmodal. subst.
  destruct e as [data| | | |text| |text| | | |n reply]; unfold step;
    cbn [ui showOtpModal scanned showManualEntry manualQrCode inflight
         andb].
  - unfold handleBarCodeScanned, processScan. cbn [ui scanned isProcessing].
    repeat case_match; try done; by destruct (parse_payload _ _).
  - by repeat case_match.
  - by repeat case_match.
  - by repeat case_match.
  - by repeat case_match.
  - unfold handleManualEntry, processScan. cbn [ui manualQrCode].
    repeat case_match; try done; by destruct (parse_payload _ _).
  - done.
  - done.
  - done.
  - by repeat case_match.
  - destruct (pending !! n) as [[parsedData caller|seen]|];
      destruct reply as [response|response]; try done.
    + unfold refusing, accepts in Hrefusing.
      unfold processScan_settled.
      destruct (ApiService.success response);
        destruct (ApiService.data response) as [d|];
        try done; by destruct caller.
    + unfold refusing, accepts in Hrefusing.
      unfold handleVerifyOtp_settled.
      destruct (ApiService.success response);
        by destruct (ApiService.data response) as [d|].
Qed.

(** X17. The scanner grants nothing by itself: in a session where no
    answer of the server is an accepted one, whatever the guard scans,
    types and presses, the result card never shows a success and the OTP
    modal never opens. *)
Theorem no_grant_without_server (events : list Event) :
  forallb refusing events = true ->
  let w := run JSON_parse events start in
  not_granted (ui w) = true
  /\ showOtpModal (ui w) = false
  /\ phase (ui w) <> Granted
  /\ phase (ui w) <> OtpPending.
Proof.
  intros Hrefusing w.
  assert (Hkept : not_granted (ui w) = true /\ showOtpModal (ui w) = false).
  { subst w.
    assert (Hstart : not_granted (ui start) = true
                     /\ showOtpModal (ui start) = false) by done.
    revert Hstart Hrefusing. generalize start.
    induction events as [|e events IH]; intros w0 Hw0 Hall; [done|].
    cbn in Hall. apply andb_true_iff in Hall as [He Hall].
    cbn. apply IH; [|done]. by apply refused_step. }
  destruct Hkept as [Hnone Hmodal]. repeat split; try done.
  - unfold phase. rewrite Hmodal. unfold not_granted in Hnone.
    destruct (scanned (ui w)); [|done].
    destruct (scanResult (ui w)) as [result|]; [|done].
    by destruct (success result).
  - unfold phase. by rewrite Hmodal; repeat case_match.
Qed.

End WithParser.

Lemma no_grant_without_server_witness :
  let events :=
    [onBarcodeScanned Sample.payload_text;
     settled 0 (ScanGuestReply
                  (ApiService.mkResponse false None None
                     (Some "Invitation expired")))] in
  forallb refusing events = true
  /\ phase (ui (run Sample.JSON_parse events start)) = Denied.
Proof.
  intros events.
  assert (H : forallb refusing events = true) by reflexivity.
  destruct (no_grant_without_server Sample.JSON_parse events H)
    as (_ & _ & Hnot & _).
  split; [exact H|].
  destruct (phase (ui (run Sample.JSON_parse events start))) eqn:Hphase;
    try reflexivity; try (by destruct Hnot); vm_compute in Hphase;
    discriminate Hphase.
Defined.



Lemma reset_keeps_call_in_flight_witness :
  let w := run Sample.JSON_parse [onBarcodeScanned Sample.payload_text] start in
  let w' := run Sample.JSON_parse
              [pressScanAnother; settled 0 (ScanGuestReply Sample.pending_otp)]
              w in
  inflight w !! 0%nat = Some (AwaitScanGuest Sample.payload Camera)
  /\ scanned (ui w) = true
  /\ modal_visible (ui w) = false
  /\ (exists d, requires_otp Sample.pending_otp d)
  /\ scanned (ui w') = false
  /\ showOtpModal (ui w') = true
  /\ pendingOtpData (ui w') = Sample.payload.
Proof.
  intros w w'.
  assert (H1 : inflight w !! 0%nat
               = Some (AwaitScanGuest Sample.payload Camera)) by reflexivity.
  assert (H2 : scanned (ui w) = true) by reflexivity.
  assert (H3 : modal_visible (ui w) = false) by reflexivity.
  assert (H4 : requires_otp Sample.pending_otp
                 (ApiService.ScanGuestResponse.mk "pending_otp" "OTP sent"
                    Sample.alice)) by (repeat split).
  destruct (reset_keeps_call_in_flight Sample.JSON_parse _ _ 0 _ _ w
              H1 H2 H3 H4) as (_ & _ & Hcamera & Hmodal & Hpayload).
  exact (conj H1 (conj H2 (conj H3 (conj (ex_intro _ _ H4)
           (conj Hcamera (conj Hmodal Hpayload)))))).
Defined.

End ScannerSessionFacts.

(** ** The guard-QR screen over whole sessions *)

Module PollerFacts.

Import MyQR PollerSafety.

Section WithPoll.

Variable members : list string.
Hypothesis has_poll : "checkPendingActions" ∈ members.


(** What a reporting poll leaves on the screen does not depend on what was
    there, so the same answer twice changes nothing the second time. *)
Lemma poll_idempotent (response : ApiService.ApiResponse PendingActions)
    (w : World) :
  poll members response (poll members response w) = poll members response w.
Proof.
  unfold poll, checkPendingActions.
  rewrite (bool_decide_eq_true_2 _ has_poll).
  destruct (ApiService.success response); [|done].
  destruct (ApiService.data response) as [d|]; [|done].
  cbn [negb showL3Modal showL4Modal initial]. rewrite !andb_true_r.
  destruct w as [s armed pending k done], s.
  by destruct (hasL3Scans d && (0 <? length (pendingL3Scans d))%nat),
       (hasL4Otps d && (0 <? length (pendingL4Otps d))%nat).
Qed.


End WithPoll.



Section AnyService.

Variable members : list string.





End AnyService.




End PollerFacts.

(** ** The activity list and the dashboard *)

Module ActivityFacts.

Import Activity.

Lemma filter_split (l : list RecentScanEvent.t) :
  List.filter (keeps success) l ++ List.filter (keeps failed) l ≡ₚ l.
Proof.
  induction l as [|a l IH]; [done|]. cbn.
  destruct (RecentScanEvent.success a); cbn.
  - by rewrite IH.
  - rewrite <- Permutation_middle. by rewrite IH.
Qed.

(** X22. The three filters of the activity screen: All shows the whole
    list; Success and Failed split it, each scan being in exactly one of
    the two, so that the two together are the list again up to order and
    their sizes add up to its size. *)
Theorem filters_split_the_list (s : State) :
  let shown f := filteredActivities (setFilter f s) in
  shown all = activities s
  /\ shown success ++ shown failed ≡ₚ activities s
  /\ Forall (fun a => RecentScanEvent.success a = true) (shown success)
  /\ Forall (fun a => RecentScanEvent.success a = false) (shown failed)
  /\ (length (shown success) + length (shown failed)
      = length (activities s))%nat.
Proof.
  intros shown. subst shown. unfold filteredActivities. cbn.
  split; [|split; [|split; [|split]]].
  - induction (activities s) as [|a l IH]; [done|]. cbn. by rewrite IH.
  - apply filter_split.
  - apply Forall_forall. intros a Ha. apply list_elem_of_In in Ha.
    by apply filter_In in Ha as [_ Ha].
  - apply Forall_forall. intros a Ha. apply list_elem_of_In in Ha.
    apply filter_In in Ha as [_ Ha]. by apply negb_true_iff.
  - rewrite <- length_app. by rewrite (filter_split (activities s)).
Qed.

Section Clock.

Variable Date_getTime : string -> option Z.
Variable toLocaleString : option Z -> string.

(** X23. What [formatTime] shows for a scan made [diff] whole seconds ago:
    Just now below a minute, which includes every timestamp in the future;
    from one to fifty-nine minutes; from one to twenty-three hours; and the
    locale date from a day on.  Zero minutes, sixty minutes, zero hours and
    twenty-four hours are never shown. *)
Theorem formatTime_ranges (now date : Z) (timestamp : string) :
  Date_getTime timestamp = Some date ->
  let diff := ((now - date) / 1000)%Z in
  let shown := formatTime Date_getTime toLocaleString now timestamp in
  ((diff < 60)%Z /\ shown = "Just now")
  \/ (exists m, (1 <= m <= 59)%Z /\ (60 * m <= diff < 60 * (m + 1))%Z
                /\ shown = pretty m +:+ "m ago")
  \/ (exists h, (1 <= h <= 23)%Z /\ (3600 * h <= diff < 3600 * (h + 1))%Z
                /\ shown = pretty h +:+ "h ago")
  \/ ((86400 <= diff)%Z /\ shown = toLocaleString (Some date)).
Proof.
  intros Hdate diff shown. subst shown. unfold formatTime. rewrite Hdate.
  fold diff. generalize diff. clear diff. intros diff.
  destruct (Z.ltb_spec diff 60); [by left|].
  destruct (Z.ltb_spec diff 3600).
  { right. left. exists (diff / 60)%Z.
    pose proof (Z.div_mod diff 60 ltac:(lia)).
    pose proof (Z.mod_pos_bound diff 60 ltac:(lia)).
    repeat split; try lia. }
  destruct (Z.ltb_spec diff 86400).
  { right. right. left. exists (diff / 3600)%Z.
    pose proof (Z.div_mod diff 3600 ltac:(lia)).
    pose proof (Z.mod_pos_bound diff 3600 ltac:(lia)).
    repeat split; try lia. }
  right. right. right. by split.
Qed.

End Clock.

Lemma formatTime_ranges_witness :
  let Date_getTime (_ : string) : option Z := Some 0%Z in
  let toLocaleString (_ : option Z) : string := "Jan 1, 12:00 AM" in
  Date_getTime "1970-01-01T00:00:00Z" = Some 0%Z
  /\ formatTime Date_getTime toLocaleString 125000 "1970-01-01T00:00:00Z"
     = "2m ago".
Proof.
  intros Date_getTime toLocaleString.
  assert (H : Date_getTime "1970-01-01T00:00:00Z" = Some 0%Z) by reflexivity.
  split; [exact H|].
  destruct (formatTime_ranges Date_getTime toLocaleString 125000 0
              "1970-01-01T00:00:00Z" H)
    as [[Hlt _]|[(m & Hm & Hdiff & Hshown)|[(h & Hh & Hdiff & _)|[Hge _]]]].
  - vm_compute in Hlt. discriminate Hlt.
  - change ((125000 - 0) / 1000)%Z with 125%Z in Hdiff.
    assert (m = 2%Z) as -> by lia. exact Hshown.
  - change ((125000 - 0) / 1000)%Z with 125%Z in Hdiff. lia.
  - vm_compute in Hge. by destruct Hge.
Defined.

(** A call is in flight only under the spinner, and then it is the only
    one. *)
Lemma one_load_step (e : Event) (w : World) :
  (inflight w = [] \/ (exists c, inflight w = [c]) /\ isLoading (ui w) = true) ->
  inflight (step e w) = []
  \/ (exists c, inflight (step e w) = [c]) /\ isLoading (ui (step e w)) = true.
Proof.
  intros Hone. destruct e as [f| |n response]; unfold step.
  - destruct (isLoading (ui w)) eqn:Hloading.
    + rewrite Hloading. exact Hone.
    + destruct Hone as [Hnone|[_ Hbusy]]; [by left|congruence].
  - destruct (isLoading (ui w)) eqn:Hloading.
    + cbn [orb]. rewrite Hloading. exact Hone.
    + cbn [orb]. destruct Hone as [Hnone|[_ Hbusy]]; [|congruence].
      destruct (refreshing (ui w)); [by left|].
      right. cbn. rewrite Hnone. by eauto.
  - destruct Hone as [Hnone|[[c Hone] Hbusy]].
    + rewrite Hnone. by left.
    + rewrite Hone. destruct n as [|n]; cbn.
      * by left.
      * right. rewrite ?Hone. by eauto.
Qed.

(** X24. The activity screen has at most one dashboard request in flight
    in any session, with the spinner up while it is; and an answer that
    fails or carries no data leaves the list as it was, where an answer
    with data replaces it by the answer's [recentActivity], or by the empty
    list when the answer has none. The filter is never changed by an
    answer. *)
Theorem activity_loads_one_at_a_time (events : list Event) (n : nat)
    (response : ApiService.ApiResponse ApiService.DashboardStats) :
  let w := run events mounted in
  let w' := step (settled n response) w in
  (length (inflight w) <= 1)%nat
  /\ (inflight w = [] \/ isLoading (ui w) = true)
  /\ filter (ui w') = filter (ui w)
  /\ (inflight w !! n = None /\ w' = w
      \/ activities (ui w')
         = match ApiService.success response, ApiService.data response with
           | true, Some d => default [] (ApiService.recentActivity d)
           | _, _ => activities (ui w)
           end).
Proof.
  intros w w'.
  assert (Hone : inflight w = []
                 \/ (exists c, inflight w = [c]) /\ isLoading (ui w) = true).
  { subst w. assert (Hstart : inflight mounted = []
                       \/ (exists c, inflight mounted = [c])
                          /\ isLoading (ui mounted) = true)
      by (right; by eauto).
    revert Hstart. generalize mounted.
    induction events as [|e events IH]; intros w0 Hw0; [done|].
    cbn. apply IH. by apply one_load_step. }
  split; [|split; [|split]].
  - destruct Hone as [->|[[c ->] _]]; cbn; lia.
  - destruct Hone as [?|[_ ?]]; [by left|by right].
  - subst w'. unfold step, loadActivities_settled.
    by repeat case_match.
  - subst w'. unfold step.
    destruct (inflight w !! n) as [caller|]; [right|by left].
    unfold loadActivities_settled. cbn.
    by repeat case_match.
Qed.

(** The dashboard: a call is in flight only under the spinner or the
    refresh indicator, and then it is the only one. *)
Lemma one_dashboard_load_step (e : Dashboard.Event) (w : Dashboard.World) :
  (Dashboard.inflight w = []
   \/ (exists c, Dashboard.inflight w = [c])
      /\ Dashboard.shows_spinner (Dashboard.ui w)
         || Dashboard.refreshing (Dashboard.ui w) = true) ->
  Dashboard.inflight (Dashboard.step e w) = []
  \/ (exists c, Dashboard.inflight (Dashboard.step e w) = [c])
     /\ Dashboard.shows_spinner (Dashboard.ui (Dashboard.step e w))
        || Dashboard.refreshing (Dashboard.ui (Dashboard.step e w)) = true.
Proof.
  intros Hone. destruct e as [|n response]; unfold Dashboard.step.
  - destruct (Dashboard.shows_spinner (Dashboard.ui w)
              || Dashboard.refreshing (Dashboard.ui w)) eqn:Hbusy.
    + rewrite Hbusy. exact Hone.
    + destruct Hone as [Hnone|[_ ?]]; [|congruence].
      right. cbn. rewrite Hnone. split; [by eauto|]. by rewrite orb_true_r.
  - destruct Hone as [Hnone|[[c Hone] Hbusy]].
    + rewrite Hnone. by left.
    + rewrite Hone. destruct n as [|n]; cbn.
      * by left.
      * right. rewrite ?Hone. by eauto.
Qed.

Lemma dashboard_data_stays_step (e : Dashboard.Event) (w : Dashboard.World) :
  is_Some (Dashboard.dashboardData (Dashboard.ui w)) ->
  is_Some (Dashboard.dashboardData (Dashboard.ui (Dashboard.step e w))).
Proof.
  intros Hdata. destruct e as [|n response]; unfold Dashboard.step.
  - by repeat case_match.
  - unfold Dashboard.loadDashboard_settled. repeat case_match; by cbn.
Qed.

(** X25. The dashboard never loses what it loaded: once an answer with data
    has arrived, no later event takes the data away, a failed refresh
    included, and the full-screen spinner does not come back. *)
Theorem dashboard_data_stays (events : list Dashboard.Event)
    (w : Dashboard.World) :
  is_Some (Dashboard.dashboardData (Dashboard.ui w)) ->
  let w' := Dashboard.run events w in
  is_Some (Dashboard.dashboardData (Dashboard.ui w'))
  /\ Dashboard.shows_spinner (Dashboard.ui w') = false.
Proof.
  intros Hdata w'.
  assert (Hstays : is_Some (Dashboard.dashboardData (Dashboard.ui w'))).
  { subst w'. revert w Hdata.
    induction events as [|e events IH]; intros w Hdata; [done|].
    cbn. apply IH. by apply dashboard_data_stays_step. }
  split; [done|]. unfold Dashboard.shows_spinner.
  by rewrite (bool_decide_eq_true_2 _ Hstays), andb_false_r.
Qed.

Lemma dashboard_data_stays_witness :
  let w := Dashboard.run [Dashboard.settled 0 Sample.dashboard_loaded]
             Dashboard.mounted in
  let w' := Dashboard.run
              [Dashboard.pullToRefresh;
               Dashboard.settled 0 Sample.dashboard_failed] w in
  is_Some (Dashboard.dashboardData (Dashboard.ui w))
  /\ Dashboard.dashboardData (Dashboard.ui w') = Some Sample.dashboard
  /\ Dashboard.shows_spinner (Dashboard.ui w') = false.
Proof.
  intros w w'.
  assert (H : is_Some (Dashboard.dashboardData (Dashboard.ui w)))
    by (by eexists).
  destruct (dashboard_data_stays
              [Dashboard.pullToRefresh;
               Dashboard.settled 0 Sample.dashboard_failed] w H)
    as [_ Hspinner].
  exact (conj H (conj eq_refl Hspinner)).
Defined.

(** X26. The dashboard has at most one request in flight in any session,
    and while one is the guard sees the spinner or the refresh indicator. *)
Theorem dashboard_loads_one_at_a_time (events : list Dashboard.Event) :
  let w := Dashboard.run events Dashboard.mounted in
  (length (Dashboard.inflight w) <= 1)%nat
  /\ (Dashboard.inflight w = []
      \/ Dashboard.shows_spinner (Dashboard.ui w)
         || Dashboard.refreshing (Dashboard.ui w) = true).
Proof.
  intros w.
  assert (Hone : Dashboard.inflight w = []
                 \/ (exists c, Dashboard.inflight w = [c])
                    /\ Dashboard.shows_spinner (Dashboard.ui w)
                       || Dashboard.refreshing (Dashboard.ui w) = true).
  { subst w.
    assert (Hstart : Dashboard.inflight Dashboard.mounted = []
                     \/ (exists c, Dashboard.inflight Dashboard.mounted = [c])
                        /\ Dashboard.shows_spinner
                             (Dashboard.ui Dashboard.mounted)
                           || Dashboard.refreshing
                                (Dashboard.ui Dashboard.mounted) = true)
      by (right; by eauto).
    revert Hstart. generalize Dashboard.mounted.
    induction events as [|e events IH]; intros w0 Hw0; [done|].
    cbn. apply IH. by apply one_dashboard_load_step. }
  split.
  - destruct Hone as [->|[[c ->] _]]; cbn; lia.
  - destruct Hone as [?|[_ ?]]; [by left|by right].
Qed.

End ActivityFacts.
